(** * jenkins-library: the pythonBuild command wrapper and the parameter
      documentation generator

    A shallow embedding of [cmd/pythonBuild_generated.go] and of
    [pkg/documentation/generator/parameters.go], with the properties of the
    two files proved over it.

    Go strings are byte sequences: they are [string] here, whose characters
    are the 256 values of [ascii].  A slice that the code only measures and
    ranges over is a [list]; the one slice the code compares with [nil]
    before touching it ([Parameters]) and the one it tests with [!= nil]
    before printing ([PossibleValues]) are [option (list _)], [None] being
    [nil].  Functions that update their argument in place return the
    updated value. *)

From stdpp Require Import base option list strings gmap sorting.
From Stdlib Require Import ZArith Lia Ascii String.

#[local] Set Warnings "-register-all".
Local Open Scope string_scope.
Local Open Scope list_scope.

(* ===================================================================== *)
(** * The Go standard library, as far as the two files use it *)
(* ===================================================================== *)

(** [strings.Compare a b]: -1, 0 or +1 by lexicographic comparison of the
    bytes.  [String.compare] compares the characters by their code. *)
Definition strings_Compare (a b : string) : Z :=
  match String.compare a b with
  | Lt => (-1)%Z
  | Eq => 0%Z
  | Gt => 1%Z
  end.

(** [strings.Join elems sep]. *)
Definition strings_Join (elems : list string) (sep : string) : string :=
  String.concat sep elems.

(** [len(s)] of a string. *)
Definition len (s : string) : nat := String.length s.

Section SliceStable.
Context {A : Type}.

  (** [sort.SliceStable(x, less)].  The Go library sorts blocks of the
      slice by insertion sort ([insertionSortLessFunc]: every element in
      turn is swapped leftwards while it is [less] than its left
      neighbour) and merges the blocks in place.  The insertion sort is
      taken for the whole slice here; [stable_sort_unique] below shows
      that, for the orders used in this repository, every procedure that
      meets the library's contract (a stable sort) computes the same
      slice.

      The closure [less i j] of the callers reads positions [i] and [j] of
      the slice being sorted, so it is a relation on the elements. *)
Variable less : A → A → bool.

  (** One pass of the inner loop, on the sorted prefix written last element
      first: [x] sits right of the prefix and moves left past every element
      it is [less] than, stopping at the first one it is not. *)
Fixpoint insertLeftwards (x : A) (revPrefix : list A) : list A :=
    match revPrefix with
    | [] => [x]
    | y :: revPrefix' =>
        if less x y then y :: insertLeftwards x revPrefix'
        else x :: revPrefix
    end.

  (** The outer loop: the elements are taken from left to right. *)
Definition insertionSort (x : list A) : list A :=
    reverse (fold_left (λ revPrefix e, insertLeftwards e revPrefix) x []).

Definition sort_SliceStable (x : list A) : list A := insertionSort x.

  (** "Not greater": the order the sorted slice is ascending in. *)
Definition notAfter (a b : A) : Prop := less b a = false.
End SliceStable.

(** Characters that a Rocq string literal cannot hold. *)
Definition nl : string := String (ascii_of_nat 10) "".
Definition dquote : string := String (ascii_of_nat 34) "".

(** Concatenation of the pieces of a text, as [+=] and the verbs of
    [fmt.Sprintf] build it. *)
Definition cat (pieces : list string) : string := String.concat "" pieces.

(** [path.Clean] and [path.Join] (and [filepath.Join] where the separator is
    the slash): the elements are joined with slashes, empty elements
    ignored, and the result is cleaned lexically: repeated slashes and [.]
    elements go, [..] removes the element before it. *)
Definition slash : ascii := ascii_of_nat 47.

Fixpoint splitSlash (cur : string) (s : string) : list string :=
  match s with
  | EmptyString => [cur]
  | String c s' =>
      if Ascii.eqb c slash then cur :: splitSlash "" s'
      else splitSlash (cur +:+ String c "") s'
  end.

(** The elements kept so far are held last element first. *)
Fixpoint cleanElements (rooted : bool) (kept : list string) (elems : list string)
  : list string :=
  match elems with
  | [] => reverse kept
  | e :: elems' =>
      if String.eqb e "" || String.eqb e "." then cleanElements rooted kept elems'
      else if String.eqb e ".." then
        match kept with
        | k :: kept' =>
            if String.eqb k ".." then cleanElements rooted (e :: kept) elems'
            else cleanElements rooted kept' elems'
        | [] =>
            if rooted then cleanElements rooted kept elems'
            else cleanElements rooted (e :: kept) elems'
        end
      else cleanElements rooted (e :: kept) elems'
  end.

Definition path_Clean (p : string) : string :=
  match p with
  | EmptyString => "."
  | String c _ =>
      let rooted := Ascii.eqb c slash in
      let out := String.concat "/" (cleanElements rooted [] (splitSlash "" p)) in
      if rooted then "/" +:+ out
      else if String.eqb out "" then "." else out
  end.

Definition path_Join (elem : list string) : string :=
  match List.filter (λ e, negb (String.eqb e "")) elem with
  | [] => ""
  | kept => path_Clean (String.concat "/" kept)
  end.

Definition filepath_Join (elem : list string) : string := path_Join elem.

(* ===================================================================== *)
(** * Package config: the step metadata *)
(* ===================================================================== *)

(** The structs of [pkg/config] with the fields that the two files read or
    write.  A value of type [interface{}] is an [Any]: the dynamic types
    that the generator tells apart in its type switch and that the
    generated metadata stores, and [AnyOther] for every other dynamic type,
    which the code only prints. *)
Module config.

Inductive Any : Type :=
  | AnyNil
  | AnyBool (v : bool)
  | AnyString (v : string)
  | AnyStrings (v : list string)
  | AnyMapStringString (v : list (string * string))
  | AnySlice (v : list Any)
  | AnyConditionDefault (key value : string) (def : Any)
  | AnyConditionDefaults (v : list (string * string * Any))
  | AnyOther (typeName : string) (printed : string).

Module Alias.
Record t : Type := mk { Name : string; Deprecated : bool }.
End Alias.

Module ResourceReference.
Record t : Type := mk {
      Name : string;
      Type_ : string;
      Param : string;
      Default : string;
      Aliases : list Alias.t
    }.
End ResourceReference.

Module ParameterDependence.
Record t : Type := mk { Name : string; Value : string }.
End ParameterDependence.

Module StepParameters.
Record t : Type := mk {
      Name : string;
      Description : string;
      LongDescription : string;
      ResourceRef : list ResourceReference.t;
      Scope : list string;
      Type_ : string;
      Mandatory : bool;
      Default : Any;
      PossibleValues : option (list Any);
      Aliases : list Alias.t;
      Secret : bool;
      MandatoryIf : list ParameterDependence.t;
      DeprecationMessage : string
    }.
End StepParameters.

Module StepSecrets.
Record t : Type := mk {
      Name : string;
      Description : string;
      Type_ : string;
      Aliases : list Alias.t
    }.
End StepSecrets.

Module StepInputs.
Record t : Type := mk {
      Parameters : option (list StepParameters.t);
      Secrets : list StepSecrets.t
    }.
End StepInputs.

Module StepResources.
Record t : Type := mk {
      Name : string;
      Type_ : string;
      Parameters : list (gmap string Any)
    }.
End StepResources.

Module StepOutputs.
Record t : Type := mk { Resources : list StepResources.t }.
End StepOutputs.

Module Container.
Record t : Type := mk { Name : string; Image : string }.
End Container.

Module StepMetadata.
Record t : Type := mk {
      Name : string;
      Aliases : list Alias.t;
      Description : string
    }.
End StepMetadata.

Module StepSpec.
Record t : Type := mk {
      Inputs : StepInputs.t;
      Outputs : StepOutputs.t;
      Containers : list Container.t
    }.
End StepSpec.

Module StepData.
Record t : Type := mk { Metadata : StepMetadata.t; Spec : StepSpec.t }.
End StepData.

  (** Modelled from the spec: [StepParameters.GetReference] is declared in
      [pkg/config], outside the two files; the generator uses it to ask
      whether a parameter has a resource reference of a given type.  It
      returns the first reference of that type, or nil. *)
Definition GetReference (m : StepParameters.t) (refType : string)
    : option ResourceReference.t :=
    List.find (λ ref, String.eqb refType (ResourceReference.Type_ ref))
              (StepParameters.ResourceRef m).

End config.


(* ===================================================================== *)
(** * Package generator: [pkg/documentation/generator/parameters.go] *)
(* ===================================================================== *)

Module generator.
Import config.

(** What the file takes from the rest of its package and from libraries
    whose results it only prints: the package variable
    [stepParameterNames], [strings.ToLower], the rendering of a value by
    the verb [%v] of [fmt], and two declarations of [pkg/config]. *)
Class Env : Type := {
  stepParameterNames : list string;
  strings_ToLower : string → string;
  fmt_Sprint : Any → string;
  VaultRootPaths : list string;
  RefTypeSystemTrustSecret : string
}.

(** A Go [error] value: its message. *)
Definition error : Type := string.

Definition vaultBadge : string :=
  "![Vault](https://img.shields.io/badge/-Vault-lightgrey)".
Definition jenkinsOnlyBadge : string :=
  "![Jenkins only](https://img.shields.io/badge/-Jenkins%20only-yellowgreen)".
Definition secretBadge : string :=
  "![Secret](https://img.shields.io/badge/-Secret-yellowgreen)".
Definition systemTrustBadge : string :=
  "![System Trust](https://img.shields.io/badge/-System%20Trust-lightblue)".
Definition deprecatedBadge : string :=
  "![deprecated](https://img.shields.io/badge/-deprecated-red)".

Definition jenkinsParams : list string :=
  ["containerCommand"; "containerName"; "containerShell"; "dockerVolumeBind";
   "dockerWorkspace"; "sidecarReadyCommand"; "sidecarWorkspace"; "stashContent"].

(** Modelled from the spec: [contains] is a helper of the generator package
    declared outside [parameters.go]; it tells whether the string occurs in
    the slice. *)
Definition contains (v : list string) (s : string) : bool :=
  existsb (String.eqb s) v.

(** Modelled from the spec: [ifThenElse] is a helper of the generator
    package declared outside [parameters.go]; it returns its second
    argument when the condition holds and its third otherwise. *)
Definition ifThenElse (condition : bool) (positive negative : string) : string :=
  if condition then positive else negative.

(** The parameter slice as the loops see it: a nil slice has no elements. *)
Definition parametersOf (stepData : StepData.t) : list StepParameters.t :=
  default [] (StepInputs.Parameters (StepSpec.Inputs (StepData.Spec stepData))).

Definition secretsOf (stepData : StepData.t) : list StepSecrets.t :=
  StepInputs.Secrets (StepSpec.Inputs (StepData.Spec stepData)).

(** The assignment to the elements of [stepData.Spec.Inputs.Parameters]. *)
Definition withParameters (stepData : StepData.t)
    (parameters : option (list StepParameters.t)) : StepData.t :=
  let spec := StepData.Spec stepData in
  StepData.mk (StepData.Metadata stepData)
    (StepSpec.mk
       (StepInputs.mk parameters (StepInputs.Secrets (StepSpec.Inputs spec)))
       (StepSpec.Outputs spec) (StepSpec.Containers spec)).

Section WithEnv.
Context `{Env}.

Definition parameterMandatoryInformation (param : StepParameters.t)
    (furtherInfo : string) : bool * string * string :=
  let mandatory := StepParameters.Mandatory param in
  let mandatoryInfo := furtherInfo in
  let mandatoryIf := StepParameters.MandatoryIf param in
  let '(mandatory, mandatoryInfo) :=
    if (0 <? List.length mandatoryIf)%nat then
      let mandatoryInfo :=
        if (0 <? len mandatoryInfo)%nat then mandatoryInfo +:+ "<br />"
        else mandatoryInfo in
      let furtherInfoConditions :=
        ["mandatory in case of:"] ++
        List.map (λ mandatoryCondition,
                    cat ["- [`"; ParameterDependence.Name mandatoryCondition;
                         "`](#";
                         strings_ToLower (ParameterDependence.Name mandatoryCondition);
                         ")=`"; ParameterDependence.Value mandatoryCondition; "`"])
                 mandatoryIf in
      (true, mandatoryInfo +:+ strings_Join furtherInfoConditions "<br />")
    else (mandatory, mandatoryInfo) in
  let mandatoryString :=
    if (0 <? len mandatoryInfo)%nat then "**(yes)**" else "**yes**" in
  (mandatory, mandatoryString, mandatoryInfo).

Definition checkParameterInfo (furtherInfo : string)
    (stepParam executionEnvironment : bool) : string * option error :=
  if stepParam && negb executionEnvironment || negb stepParam && executionEnvironment
  then (furtherInfo, None)
  else if executionEnvironment
  then ("", Some "step parameter not relevant as execution environment parameter")
  else ("", Some "execution environment parameter not relevant as step parameter").

(** The text for a secret parameter, lines 122 to 136. *)
Definition secretInfoOf (param : StepParameters.t) : string :=
  let secretInfo := cat [secretBadge; " pass via ENV or Jenkins credentials"] in
  let isVaultSecret :=
    bool_decide (is_Some (GetReference param "vaultSecret"))
    || bool_decide (is_Some (GetReference param "vaultSecretFile")) in
  let isSystemTrustSecret :=
    bool_decide (is_Some (GetReference param RefTypeSystemTrustSecret)) in
  let secretInfo :=
    if isVaultSecret && isSystemTrustSecret then
      cat [" "; vaultBadge; " "; systemTrustBadge; " "; secretBadge;
           " pass via ENV, Vault, System Trust or Jenkins credentials"]
    else if isVaultSecret then
      cat [" "; vaultBadge; " "; secretBadge;
           " pass via ENV, Vault or Jenkins credentials"]
    else secretInfo in
  fold_left
    (λ secretInfo res,
       if String.eqb (ResourceReference.Type_ res) "secret" then
         secretInfo +:+
         cat [" ([`"; ResourceReference.Name res; "`](#";
              strings_ToLower (ResourceReference.Name res); "))"]
       else secretInfo)
    (StepParameters.ResourceRef param) secretInfo.

Definition parameterFurtherInfo (paramName : string) (stepData : StepData.t)
    (executionEnvironment : bool) : string * option error :=
  if String.eqb paramName "verbose" then
    checkParameterInfo "activates debug output" true executionEnvironment
  else if String.eqb paramName "script" then
    checkParameterInfo
      (cat [jenkinsOnlyBadge; " reference to Jenkins main pipeline script"])
      true executionEnvironment
  else if negb (contains stepParameterNames paramName) then
    if existsb (λ secret, String.eqb paramName (StepSecrets.Name secret)
                          && String.eqb (StepSecrets.Type_ secret) "jenkins")
               (secretsOf stepData)
    then
      checkParameterInfo
        (cat [jenkinsOnlyBadge;
              " id of credentials ([using credentials](https://www.jenkins.io/doc/book/using/using-credentials/))"])
        true executionEnvironment
    else if contains jenkinsParams paramName then
      checkParameterInfo jenkinsOnlyBadge false executionEnvironment
    else checkParameterInfo "" false executionEnvironment
  else
    match List.find (λ param, String.eqb paramName (StepParameters.Name param))
                    (parametersOf stepData) with
    | Some param =>
        let furtherInfo :=
          if negb (String.eqb (StepParameters.DeprecationMessage param) "")
          then "" +:+ deprecatedBadge else "" in
        if StepParameters.Secret param then
          checkParameterInfo (furtherInfo +:+ secretInfoOf param) true
                             executionEnvironment
        else checkParameterInfo furtherInfo true executionEnvironment
    | None => checkParameterInfo "" true executionEnvironment
    end.

(** The body of the loop of [createParameterOverview]: the table row of one
    parameter, or nothing when [parameterFurtherInfo] reports an error. *)
Definition overviewRow (stepData : StepData.t) (executionEnvironment : bool)
    (param : StepParameters.t) : option string :=
  let '(furtherInfo, err) :=
    parameterFurtherInfo (StepParameters.Name param) stepData executionEnvironment in
  match err with
  | None =>
      let '(mandatory, mandatoryString, furtherInfo) :=
        parameterMandatoryInformation param furtherInfo in
      Some (cat ["| ["; StepParameters.Name param; "](#";
                 strings_ToLower (StepParameters.Name param); ") | ";
                 ifThenElse mandatory mandatoryString "no"; " | ";
                 furtherInfo; " |"; nl])
  | Some _ => None
  end.

Definition createParameterOverview (stepData : StepData.t)
    (executionEnvironment : bool) : string :=
  let table := cat ["| Name | Mandatory | Additional information |"; nl] in
  let table := table +:+ cat ["| ---- | --------- | ---------------------- |"; nl] in
  let table :=
    fold_left (λ table param,
                 match overviewRow stepData executionEnvironment param with
                 | Some row => table +:+ row
                 | None => table
                 end)
              (parametersOf stepData) table in
  table +:+ nl.

(** The rendering of one conditional default, [key=`value`: `def`]. *)
Definition conditionDefaultText (key value : string) (def : Any) : string :=
  cat [key; "=`"; value; "`: `"; fmt_Sprint def; "`"].

(** A map is ranged over in the order its entries are listed in
    [AnyMapStringString]. *)
Definition formatDefault (param : StepParameters.t)
    (stepParameterNames : list string) : string :=
  match StepParameters.Default param with
  | AnyNil =>
      if contains stepParameterNames (StepParameters.Name param) then
        cat ["`$PIPER_"; StepParameters.Name param; "` (if set)"]
      else ""
  | AnyConditionDefaults v =>
      let defaults :=
        List.map (λ '(key, value, def),
                    if (0 <? len key)%nat && (0 <? len value)%nat then
                      conditionDefaultText key value def
                    else cat ["`"; fmt_Sprint def; "`"])
                 v in
      strings_Join defaults "<br />"
  | AnySlice v =>
      let defaults :=
        List.map (λ def,
                    match def with
                    | AnyConditionDefault key value d =>
                        conditionDefaultText key value d
                    | _ => cat ["- `"; fmt_Sprint def; "`"]
                    end)
                 v in
      strings_Join defaults "<br />"
  | AnyMapStringString v =>
      let defaults :=
        List.map (λ '(key, def), cat ["`"; key; "`: `"; def; "`"]) v in
      strings_Join defaults "<br />"
  | AnyString v =>
      if (len v =? 0)%nat then "`''`" else cat ["`"; v; "`"]
  | _ => cat ["`"; fmt_Sprint (StepParameters.Default param); "`"]
  end.

Definition aliasList (aliases : list Alias.t) : string :=
  match aliases with
  | [] => "-"
  | [alias0] =>
      let alias := cat ["`"; Alias.Name alias0; "`"] in
      if Alias.Deprecated alias0 then alias +:+ " (**deprecated**)" else alias
  | _ =>
      let aList :=
        List.map (λ alias,
                    let item := cat ["- `"; Alias.Name alias; "`"] in
                    if Alias.Deprecated alias then item +:+ " (**deprecated**)"
                    else item)
                 aliases in
      strings_Join aList "<br />"
  end.

Definition possibleValueList (possibleValues : list Any) : string :=
  if (List.length possibleValues =? 0)%nat then ""
  else
    let pList :=
      List.map (λ possibleValue, cat ["- `"; fmt_Sprint possibleValue; "`"])
               possibleValues in
    strings_Join pList "<br />".

Definition scopeDetails (scope : list string) : string :=
  let scopeDetails := "<ul>" in
  let scopeDetails := scopeDetails +:+
    cat ["<li>"; ifThenElse (contains scope "PARAMETERS") "&#9746;" "&#9744;";
         " parameter</li>"] in
  let scopeDetails := scopeDetails +:+
    cat ["<li>"; ifThenElse (contains scope "GENERAL") "&#9746;" "&#9744;";
         " general</li>"] in
  let scopeDetails := scopeDetails +:+
    cat ["<li>"; ifThenElse (contains scope "STEPS") "&#9746;" "&#9744;";
         " steps</li>"] in
  let scopeDetails := scopeDetails +:+
    cat ["<li>"; ifThenElse (contains scope "STAGES") "&#9746;" "&#9744;";
         " stages</li>"] in
  scopeDetails +:+ "</ul>".

Definition addVaultResourceDetails (resource : ResourceReference.t)
    (resourceDetails : string) : string :=
  let resourceDetails := resourceDetails +:+ "<br/>Vault resource:<br />" in
  let resourceDetails := resourceDetails +:+
    cat ["&nbsp;&nbsp;name: `"; ResourceReference.Name resource; "`<br />"] in
  let resourceDetails := resourceDetails +:+
    cat ["&nbsp;&nbsp;default value: `"; ResourceReference.Default resource;
         "`<br />"] in
  let resourceDetails := resourceDetails +:+ "<br/>Vault paths: <br />" in
  let resourceDetails := resourceDetails +:+ "<ul>" in
  let resourceDetails :=
    fold_left
      (λ resourceDetails rootPath,
         resourceDetails +:+
         cat ["<li>`";
              path_Join [rootPath; ResourceReference.Default resource];
              "`</li>"])
      VaultRootPaths resourceDetails in
  resourceDetails +:+ "</ul>".

Definition addSystemTrustResourceDetails (resource : ResourceReference.t)
    (resourceDetails : string) : string :=
  let resourceDetails := resourceDetails +:+ "<br/>System Trust resource:<br />" in
  let resourceDetails := resourceDetails +:+
    cat ["&nbsp;&nbsp;name: `"; ResourceReference.Name resource; "`<br />"] in
  resourceDetails +:+
    cat ["&nbsp;&nbsp;value: `"; ResourceReference.Default resource; "`<br />"].

(** One round of the loop of [resourceReferenceDetails]; each [continue]
    ends the round. *)
Definition resourceReferenceStep (resourceDetails : string)
    (resource : ResourceReference.t) : string :=
  if String.eqb (ResourceReference.Name resource) "commonPipelineEnvironment" then
    let resourceDetails := resourceDetails +:+ "_commonPipelineEnvironment_:<br />" in
    resourceDetails +:+
      cat ["&nbsp;&nbsp;reference to: `"; ResourceReference.Param resource;
           "`<br />"]
  else if String.eqb (ResourceReference.Type_ resource) "secret" then
    let resourceDetails := resourceDetails +:+ "Jenkins credential id:<br />" in
    let resourceDetails :=
      fold_left
        (λ resourceDetails '(i, alias),
           let resourceDetails :=
             if (i =? 0)%nat then resourceDetails +:+ "&nbsp;&nbsp;aliases:<br />"
             else resourceDetails in
           resourceDetails +:+
             cat ["&nbsp;&nbsp;- `"; Alias.Name alias; "`";
                  ifThenElse (Alias.Deprecated alias) " (**Deprecated**)" "";
                  "<br />"])
        (imap (λ i alias, (i, alias)) (ResourceReference.Aliases resource))
        resourceDetails in
    let resourceDetails := resourceDetails +:+
      cat ["&nbsp;&nbsp;id: [`"; ResourceReference.Name resource; "`](#";
           strings_ToLower (ResourceReference.Name resource); ")<br />"] in
    if negb (String.eqb (ResourceReference.Param resource) "") then
      resourceDetails +:+
        cat ["&nbsp;&nbsp;reference to: `"; ResourceReference.Param resource;
             "`<br />"]
    else resourceDetails
  else if String.eqb (ResourceReference.Type_ resource) "vaultSecret"
          || String.eqb (ResourceReference.Type_ resource) "vaultSecretFile" then
    addVaultResourceDetails resource resourceDetails
  else if String.eqb (ResourceReference.Type_ resource) RefTypeSystemTrustSecret then
    addSystemTrustResourceDetails resource resourceDetails
  else resourceDetails.

Definition resourceReferenceDetails (resourceRef : list ResourceReference.t)
  : string :=
  if (List.length resourceRef =? 0)%nat then "none"
  else fold_left resourceReferenceStep resourceRef "".

(** The text that [createParameterDetails] adds for one parameter. *)
Definition parameterDetails (details : string) (param : StepParameters.t)
  : string :=
  let details := details +:+ cat ["#### "; StepParameters.Name param; nl; nl] in
  let details :=
    if negb (contains stepParameterNames (StepParameters.Name param))
       && contains jenkinsParams (StepParameters.Name param)
    then details +:+
         cat ["**Jenkins-specific:** Used for proper environment setup."; nl; nl]
    else details in
  let details :=
    if (0 <? len (StepParameters.LongDescription param))%nat
    then details +:+ StepParameters.LongDescription param +:+ cat [nl; nl]
    else details +:+ StepParameters.Description param +:+ cat [nl; nl] in
  let details := details +:+ cat ["[back to overview](#parameters)"; nl; nl] in
  let details := details +:+ cat ["| Scope | Details |"; nl] in
  let details := details +:+ cat ["| ---- | --------- |"; nl] in
  let details :=
    if negb (String.eqb (StepParameters.DeprecationMessage param) "")
    then details +:+
         cat ["| Deprecated | "; StepParameters.DeprecationMessage param; " |"; nl]
    else details in
  let details := details +:+
    cat ["| Aliases | "; aliasList (StepParameters.Aliases param); " |"; nl] in
  let details := details +:+
    cat ["| Type | `"; StepParameters.Type_ param; "` |"; nl] in
  let '(mandatory, mandatoryString, furtherInfo) :=
    parameterMandatoryInformation param "" in
  let mandatoryString :=
    if mandatory && (0 <? len furtherInfo)%nat then furtherInfo
    else mandatoryString in
  let details := details +:+
    cat ["| Mandatory | "; ifThenElse mandatory mandatoryString "no"; " |"; nl] in
  let details := details +:+
    cat ["| Default | "; formatDefault param stepParameterNames; " |"; nl] in
  let details :=
    match StepParameters.PossibleValues param with
    | Some possibleValues =>
        details +:+
        cat ["| Possible values | "; possibleValueList possibleValues; " |"; nl]
    | None => details
    end in
  let details := details +:+
    cat ["| Secret | "; ifThenElse (StepParameters.Secret param) "**yes**" "no";
         " |"; nl] in
  let details := details +:+
    cat ["| Configuration scope | "; scopeDetails (StepParameters.Scope param);
         " |"; nl] in
  let details := details +:+
    cat ["| Resource references | ";
         resourceReferenceDetails (StepParameters.ResourceRef param); " |"; nl] in
  details +:+ cat [nl; nl].

(** The text that [createParameterDetails] adds for one secret. *)
Definition secretDetails (details : string) (secret : StepSecrets.t) : string :=
  let details := details +:+ cat ["#### "; StepSecrets.Name secret; nl; nl] in
  let details :=
    if negb (contains stepParameterNames (StepSecrets.Name secret))
       && contains jenkinsParams (StepSecrets.Name secret)
    then details +:+
         cat ["**Jenkins-specific:** Used for proper environment setup. See *[using credentials](https://www.jenkins.io/doc/book/using/using-credentials/)* for details.";
              nl; nl]
    else details in
  let details := details +:+ StepSecrets.Description secret +:+ cat [nl; nl] in
  let details := details +:+ cat ["[back to overview](#parameters)"; nl; nl] in
  let details := details +:+ cat ["| Scope | Details |"; nl] in
  let details := details +:+ cat ["| ---- | --------- |"; nl] in
  let details := details +:+
    cat ["| Aliases | "; aliasList (StepSecrets.Aliases secret); " |"; nl] in
  let details := details +:+ cat ["| Type | `"; "string"; "` |"; nl] in
  let details := details +:+
    cat ["| Configuration scope | ";
         scopeDetails ["PARAMETERS"; "GENERAL"; "STEPS"; "STAGES"]; " |"; nl] in
  details +:+ cat [nl; nl].

Definition createParameterDetails (stepData : StepData.t) : string :=
  let details := "" in
  let details := fold_left parameterDetails (parametersOf stepData) details in
  fold_left secretDetails (secretsOf stepData) details.

(** The test of both closures: the parameter is mandatory, always or under
    a condition. *)
Definition isMandatory (p : StepParameters.t) : bool :=
  StepParameters.Mandatory p
  || (0 <? List.length (StepParameters.MandatoryIf p))%nat.

(** The closure passed to [sort.SliceStable] when [considerMandatory] holds,
    on the elements at its two indices. *)
Definition lessMandatoryFirst (pi pj : StepParameters.t) : bool :=
  if Bool.eqb (isMandatory pi) (isMandatory pj) then
    (strings_Compare (StepParameters.Name pi) (StepParameters.Name pj) <? 0)%Z
  else if isMandatory pi then true
  else false.

(** The closure passed otherwise. *)
Definition lessByName (pi pj : StepParameters.t) : bool :=
  (strings_Compare (StepParameters.Name pi) (StepParameters.Name pj) <? 0)%Z.

(** [sortStepParameters] reorders the slice inside [stepData]; the
    reordered metadata is its result here. *)
Definition sortStepParameters (stepData : StepData.t) (considerMandatory : bool)
  : StepData.t :=
  match StepInputs.Parameters (StepSpec.Inputs (StepData.Spec stepData)) with
  | Some parameters =>
      if considerMandatory then
        withParameters stepData
          (Some (sort_SliceStable lessMandatoryFirst parameters))
      else
        withParameters stepData (Some (sort_SliceStable lessByName parameters))
  | None => stepData
  end.

(** [createParametersSection] returns the text; the metadata it leaves
    behind, reordered twice, comes with it. *)
Definition createParametersSection (stepData : StepData.t)
  : string * StepData.t :=
  let parameters := cat ["## Parameters"; nl; nl] in
  let stepData := sortStepParameters stepData true in
  let parameters := parameters +:+ cat ["### Overview - Step"; nl; nl] in
  let parameters := parameters +:+ createParameterOverview stepData false in
  let parameters := parameters +:+
    cat ["### Overview - Execution Environment"; nl; nl] in
  let parameters := parameters +:+
    cat ["!!! note "; dquote; "Orchestrator-specific only"; dquote; nl; nl;
         "    These parameters are relevant for orchestrator usage and not considered when using the command line option.";
         nl; nl] in
  let parameters := parameters +:+ createParameterOverview stepData true in
  let stepData := sortStepParameters stepData false in
  let parameters := parameters +:+ cat ["### Details"; nl; nl] in
  let parameters := parameters +:+ createParameterDetails stepData in
  (parameters, stepData).

End WithEnv.
End generator.


(* ===================================================================== *)
(** * Package cmd: [cmd/pythonBuild_generated.go] *)
(* ===================================================================== *)

Module cmd.
Import config.

Definition error : Type := string.

Record pythonBuildOptions : Type := mkOptions {
  BuildFlags : list string;
  SetupFlags : list string;
  CreateBOM : bool;
  Publish : bool;
  TargetRepositoryPassword : string;
  TargetRepositoryUser : string;
  TargetRepositoryURL : string;
  BuildSettingsInfo : string;
  VirutalEnvironmentName : string;
  RequirementsFilePath : string
}.

(** The anonymous struct type of the field [custom]. *)
Module customStruct.
Record t : Type := mk { buildSettingsInfo : string }.
End customStruct.

Record pythonBuildCommonPipelineEnvironment : Type := mkEnvironment {
  custom : customStruct.t
}.

(** [telemetry.CustomData], with the fields that [Run] assigns. *)
Module CustomData.
Record t : Type := mk {
  Duration : string;
  ErrorCode : string;
  ErrorCategory : string;
  PiperCommitHash : string
}.
Definition zero : t := mk "" "" "" "".
Definition withErrorCode (d : t) (v : string) : t :=
  mk (Duration d) v (ErrorCategory d) (PiperCommitHash d).
Definition withDuration (d : t) (v : string) : t :=
  mk v (ErrorCode d) (ErrorCategory d) (PiperCommitHash d).
Definition withErrorCategory (d : t) (v : string) : t :=
  mk (Duration d) (ErrorCode d) v (PiperCommitHash d).
Definition withPiperCommitHash (d : t) (v : string) : t :=
  mk (Duration d) (ErrorCode d) (ErrorCategory d) v.
End CustomData.

(** The package variable [GeneralConfig], with the fields the file reads or
    writes. *)
Module SentryConfig.
Record t : Type := mk { Dsn : string }.
End SentryConfig.

Module SplunkConfig.
Record t : Type := mk {
  Dsn : string;
  Token : string;
  Index : string;
  SendLogs : bool;
  ProdCriblEndpoint : string;
  ProdCriblToken : string;
  ProdCriblIndex : string
}.
End SplunkConfig.

Module GCPPubSubConfig.
Record t : Type := mk {
  Enabled : bool;
  ProjectNumber : string;
  IdentityPool : string;
  IdentityProvider : string;
  Topic : string
}.
End GCPPubSubConfig.

Module OIDCConfig.
Record t : Type := mk { RoleID : string }.
End OIDCConfig.

Module HookConfiguration.
Record t : Type := mk {
  SentryConfig : SentryConfig.t;
  SplunkConfig : SplunkConfig.t;
  GCPPubSubConfig : GCPPubSubConfig.t;
  OIDCConfig : OIDCConfig.t
}.
End HookConfiguration.

Module GeneralConfigOptions.
Record t : Type := mk {
  Verbose : bool;
  GitHubTokens : list string;
  GitHubAccessTokens : gmap string string;
  CorrelationID : string;
  EnvRootPath : string;
  HookConfig : HookConfiguration.t
}.
Definition withGitHubAccessTokens (g : t) (v : gmap string string) : t :=
  mk (Verbose g) (GitHubTokens g) v (CorrelationID g) (EnvRootPath g)
     (HookConfig g).
End GeneralConfigOptions.

(** The hooks handed to [log.RegisterHook]. *)
Inductive Hook : Type :=
| FatalHook (CorrelationID Path : string)
| SentryHook (Dsn CorrelationID : string)
| CollectorHook (CorrelationID : string).

Inductive ErrorCategory : Type :=
| ErrorConfiguration.

(** A call that leaves the file: into the shared infrastructure (logging,
    configuration, telemetry, Splunk, GCP, vault, the resource store, the
    operating system) or into the step itself ([pythonBuild]).  The
    arguments are the values passed; an argument passed by pointer is the
    value it points to at the call. *)
Inductive Call : Type :=
| time_Now
| time_Since (start : Z)
| os_Getwd
| os_Exit (code : Z)
| ResolveAccessTokens (tokens : list string)
| PrepareConfig (stepName : string)
| log_SetStepName (stepName : string)
| log_SetVerbose (verbose : bool)
| log_RegisterHook (hook : Hook)
| log_NewSentryHook (dsn correlationID : string)
| log_SetErrorCategory (category : ErrorCategory)
| log_GetErrorCategory
| log_RegisterSecret (secret : string)
| log_RegisterANSHookIfConfigured (correlationID : string)
| log_DeferExitHandler
| log_Error (message : string) (withError : option error)
| log_Warn (message : string) (withError : option error)
| log_Info (message : string)
| validation_New
| validation_ValidateStruct (s : pythonBuildOptions)
| config_GlobalVaultClient
| config_RemoveVaultSecretFiles
| vaultClient_MustRevokeToken
| piperenv_SetResourceParameter (path resourceName paramName : string) (value : Any)
| telemetry_Initialize (stepName : string)
| telemetry_SetData (customData : CustomData.t)
| telemetry_LogStepTelemetryData
| telemetry_GetData
| telemetry_GetDataBytes
| splunk_Initialize (correlationID dsn token index : string) (sendLogs : bool)
| splunk_Send
| gcp_NewGcpPubsubClient (vaultClient : bool)
    (projectNumber pool provider correlationID roleID : string)
| gcp_Publish (topic : string)
| pythonBuild (config : pythonBuildOptions)
              (telemetryData : CustomData.t)
              (commonPipelineEnvironment : pythonBuildCommonPipelineEnvironment).

(** The one call that is the step's own work; every other one goes to the
    shared infrastructure. *)
Definition isDomainCall (c : Call) : bool :=
  match c with
  | pythonBuild _ _ _ => true
  | _ => false
  end.

(** How a call of [pythonBuild] can end.  The step reports failure through
    [log.Fatal], which runs the handlers registered with
    [log.DeferExitHandler] and exits the process without running deferred
    calls; a panic unwinds [Run] and runs its deferred calls. *)
Inductive Ending : Type :=
| Returns
| ExitsFatal
| Panics.

(** What the surroundings answer to the calls.  The variables that
    [pythonBuild] receives by pointer come back as it leaves them. *)
Record World : Type := mkWorld {
  now : Z;
  sinceMilliseconds : Z → Z;
  getwd : string + error;
  accessTokens : list string → gmap string string;
  prepareConfig : pythonBuildOptions → pythonBuildOptions * option error;
  registerANSHook : option error;
  newValidation : option error;
  validateStruct : pythonBuildOptions → option error;
  globalVaultClient : bool;
  errorCategory : string;
  gitCommit : string;
  setResourceParameter : string → string → string → Any → option error;
  publish : option error;
  runPythonBuild :
    pythonBuildOptions → CustomData.t → pythonBuildCommonPipelineEnvironment →
    Ending * CustomData.t * pythonBuildCommonPipelineEnvironment;
  formatInt : Z → string
}.

(** Modelled from the spec: the common pipeline environment is "a shared
    key-value resource store passed between pipeline steps"; it is kept by
    [pkg/piperenv], outside the two files.  An entry is addressed by the
    root path, the resource name and the parameter name. *)
Abbreviation ResourceStore := (gmap (string * string * string) Any).

(** The variables that the closures of [PythonBuildCommand] share, the
    package variable [GeneralConfig] and the resource store. *)
Record State : Type := mkState {
  stepConfig : pythonBuildOptions;
  startTime : Z;
  commonPipelineEnvironment : pythonBuildCommonPipelineEnvironment;
  logCollector : option Hook;
  splunkClient : bool;
  GeneralConfig : GeneralConfigOptions.t;
  resources : ResourceStore
}.

Definition withStepConfig (s : State) (v : pythonBuildOptions) : State :=
  mkState v (startTime s) (commonPipelineEnvironment s) (logCollector s)
          (splunkClient s) (GeneralConfig s) (resources s).
Definition withStartTime (s : State) (v : Z) : State :=
  mkState (stepConfig s) v (commonPipelineEnvironment s) (logCollector s)
          (splunkClient s) (GeneralConfig s) (resources s).
Definition withCommonPipelineEnvironment (s : State)
    (v : pythonBuildCommonPipelineEnvironment) : State :=
  mkState (stepConfig s) (startTime s) v (logCollector s)
          (splunkClient s) (GeneralConfig s) (resources s).
Definition withLogCollector (s : State) (v : option Hook) : State :=
  mkState (stepConfig s) (startTime s) (commonPipelineEnvironment s) v
          (splunkClient s) (GeneralConfig s) (resources s).
Definition withSplunkClient (s : State) (v : bool) : State :=
  mkState (stepConfig s) (startTime s) (commonPipelineEnvironment s)
          (logCollector s) v (GeneralConfig s) (resources s).
Definition withGeneralConfig (s : State) (v : GeneralConfigOptions.t) : State :=
  mkState (stepConfig s) (startTime s) (commonPipelineEnvironment s)
          (logCollector s) (splunkClient s) v (resources s).
Definition withResources (s : State) (v : ResourceStore) : State :=
  mkState (stepConfig s) (startTime s) (commonPipelineEnvironment s)
          (logCollector s) (splunkClient s) (GeneralConfig s) v.

(** A computation: from a state it goes on with a value, or leaves the
    function with [return err]; it ends in a state and has made calls, listed
    oldest first. *)
Definition M (A : Type) : Type := State → (error + A) * State * list Call.

#[export] Instance M_ret : MRet M := λ A (a : A) s, (inr a, s, []).

#[export] Instance M_bind : MBind M := λ A B (f : A → M B) (m : M A) s,
  match m s with
  | (inr a, s', calls) =>
      let '(r, s'', calls') := f a s' in (r, s'', calls ++ calls')
  | (inl err, s', calls) => (inl err, s', calls)
  end.

Definition returnErr {A : Type} (err : error) : M A := λ s, (inl err, s, []).
Definition gets {A : Type} (f : State → A) : M A := λ s, (inr (f s), s, []).
Definition modify (f : State → State) : M unit := λ s, (inr tt, f s, []).
Definition call (c : Call) : M unit := λ s, (inr tt, s, [c]).

(** A [for ... range] loop that carries a variable through its rounds. *)
Fixpoint forRange {A B : Type} (l : list A) (acc : B) (body : B → A → M B)
  : M B :=
  match l with
  | [] => mret acc
  | a :: l' => acc' ← body acc a; forRange l' acc' body
  end.

Definition resultOf {A : Type} (m : M A) (s : State) : error + A := fst (fst (m s)).
Definition stateAfter {A : Type} (m : M A) (s : State) : State := snd (fst (m s)).
Definition callsOf {A : Type} (m : M A) (s : State) : list Call := snd (m s).

Definition STEP_NAME : string := "pythonBuild".

Section WithWorld.
Variable w : World.

(** Modelled from the spec: [piperenv.SetResourceParameter] is declared
    outside the two files; it stores the value under the parameter name in
    the resource of the store at the path, or reports an error and stores
    nothing. *)
Definition SetResourceParameter (path resourceName paramName : string)
    (value : Any) : M (option error) :=
  call (piperenv_SetResourceParameter path resourceName paramName value);;
  match setResourceParameter w path resourceName paramName value with
  | Some err => mret (Some err)
  | None =>
      modify (λ s, withResources s
                     (<[(path, resourceName, paramName) := value]> (resources s)));;
      mret None
  end.

Definition persist (p : pythonBuildCommonPipelineEnvironment)
    (path resourceName : string) : M unit :=
  let content : list (string * string * Any) :=
    [("custom", "buildSettingsInfo",
      AnyString (customStruct.buildSettingsInfo (custom p)))] in
  let errCount := 0%nat in
  errCount ←
    forRange content errCount
      (λ errCount '(category, name, value),
         err ← SetResourceParameter path resourceName
                 (filepath_Join [category; name]) value;
         match err with
         | Some e =>
             call (log_Error "Error persisting piper environment." (Some e));;
             mret (S errCount)
         | None => mret errCount
         end);
  if (0 <? errCount)%nat
  then call (log_Error "failed to persist Piper environment" None)
  else mret tt.

Definition PreRunE : M unit :=
  call time_Now;;
  modify (λ s, withStartTime s (now w));;
  call (log_SetStepName STEP_NAME);;
  g ← gets GeneralConfig;
  call (log_SetVerbose (GeneralConfigOptions.Verbose g));;
  call (ResolveAccessTokens (GeneralConfigOptions.GitHubTokens g));;
  modify (λ s, withGeneralConfig s
                 (GeneralConfigOptions.withGitHubAccessTokens g
                    (accessTokens w (GeneralConfigOptions.GitHubTokens g))));;
  g ← gets GeneralConfig;
  call os_Getwd;;
  path ← match getwd w with
         | inl path => mret path
         | inr err => returnErr err
         end;
  let fatalHook := FatalHook (GeneralConfigOptions.CorrelationID g) path in
  call (log_RegisterHook fatalHook);;
  call (PrepareConfig STEP_NAME);;
  before ← gets stepConfig;
  let '(populated, err) := prepareConfig w before in
  modify (λ s, withStepConfig s populated);;
  match err with
  | Some err => call (log_SetErrorCategory ErrorConfiguration);; returnErr err
  | None => mret tt
  end;;
  stepConfig ← gets stepConfig;
  call (log_RegisterSecret (TargetRepositoryPassword stepConfig));;
  call (log_RegisterSecret (TargetRepositoryUser stepConfig));;
  let hooks := GeneralConfigOptions.HookConfig g in
  (if (0 <? len (SentryConfig.Dsn (HookConfiguration.SentryConfig hooks)))%nat
   then
     call (log_NewSentryHook (SentryConfig.Dsn (HookConfiguration.SentryConfig hooks))
                             (GeneralConfigOptions.CorrelationID g));;
     call (log_RegisterHook
             (SentryHook (SentryConfig.Dsn (HookConfiguration.SentryConfig hooks))
                         (GeneralConfigOptions.CorrelationID g)))
   else mret tt);;
  (if (0 <? len (SplunkConfig.Dsn (HookConfiguration.SplunkConfig hooks)))%nat
      || (0 <? len (SplunkConfig.ProdCriblEndpoint
                      (HookConfiguration.SplunkConfig hooks)))%nat
   then
     modify (λ s, withSplunkClient s true);;
     let collector := CollectorHook (GeneralConfigOptions.CorrelationID g) in
     modify (λ s, withLogCollector s (Some collector));;
     call (log_RegisterHook collector)
   else mret tt);;
  call (log_RegisterANSHookIfConfigured (GeneralConfigOptions.CorrelationID g));;
  match registerANSHook w with
  | Some err =>
      call (log_Warn "failed to set up SAP Alert Notification Service log hook"
                     (Some err))
  | None => mret tt
  end;;
  call validation_New;;
  match newValidation w with
  | Some err => returnErr err
  | None => mret tt
  end;;
  call (validation_ValidateStruct stepConfig);;
  match validateStruct w stepConfig with
  | Some err => call (log_SetErrorCategory ErrorConfiguration);; returnErr err
  | None => mret tt
  end;;
  mret tt.

(** The closure [handler] of [Run].  It reads and assigns the local
    variable [stepTelemetryData] of [Run], which is passed in and handed
    back here; the [vaultClient] it captures is what
    [config.GlobalVaultClient] answered, nil or not. *)
Definition handler (stepTelemetryData : CustomData.t) : M CustomData.t :=
  g ← gets GeneralConfig;
  cpe ← gets commonPipelineEnvironment;
  persist cpe (GeneralConfigOptions.EnvRootPath g) "commonPipelineEnvironment";;
  call config_RemoveVaultSecretFiles;;
  start ← gets startTime;
  call (time_Since start);;
  let stepTelemetryData :=
    CustomData.withDuration stepTelemetryData
      (formatInt w (sinceMilliseconds w start)) in
  call log_GetErrorCategory;;
  let stepTelemetryData :=
    CustomData.withErrorCategory stepTelemetryData (errorCategory w) in
  let stepTelemetryData :=
    CustomData.withPiperCommitHash stepTelemetryData (gitCommit w) in
  call (telemetry_SetData stepTelemetryData);;
  call telemetry_LogStepTelemetryData;;
  let hooks := GeneralConfigOptions.HookConfig g in
  let splunk := HookConfiguration.SplunkConfig hooks in
  let pubsub := HookConfiguration.GCPPubSubConfig hooks in
  (if (0 <? len (SplunkConfig.Dsn splunk))%nat then
     call (splunk_Initialize (GeneralConfigOptions.CorrelationID g)
             (SplunkConfig.Dsn splunk) (SplunkConfig.Token splunk)
             (SplunkConfig.Index splunk) (SplunkConfig.SendLogs splunk));;
     call telemetry_GetData;;
     call splunk_Send
   else mret tt);;
  (if (0 <? len (SplunkConfig.ProdCriblEndpoint splunk))%nat then
     call (splunk_Initialize (GeneralConfigOptions.CorrelationID g)
             (SplunkConfig.ProdCriblEndpoint splunk)
             (SplunkConfig.ProdCriblToken splunk)
             (SplunkConfig.ProdCriblIndex splunk) (SplunkConfig.SendLogs splunk));;
     call telemetry_GetData;;
     call splunk_Send
   else mret tt);;
  (if GCPPubSubConfig.Enabled pubsub then
     call (gcp_NewGcpPubsubClient
             (globalVaultClient w)
             (GCPPubSubConfig.ProjectNumber pubsub)
             (GCPPubSubConfig.IdentityPool pubsub)
             (GCPPubSubConfig.IdentityProvider pubsub)
             (GeneralConfigOptions.CorrelationID g)
             (OIDCConfig.RoleID (HookConfiguration.OIDCConfig hooks)));;
     call telemetry_GetDataBytes;;
     call (gcp_Publish (GCPPubSubConfig.Topic pubsub));;
     match publish w with
     | Some err => call (log_Warn "event publish failed" (Some err))
     | None => mret tt
     end
   else mret tt);;
  mret stepTelemetryData.

(** The deferred [vaultClient.MustRevokeToken()], deferred only when the
    client is not nil. *)
Definition deferredRevoke (vaultClient : bool) : M unit :=
  if vaultClient then call vaultClient_MustRevokeToken else mret tt.

(** [Run].  Its two deferred calls run when it returns or panics, the one
    deferred last first; they do not run when the process exits inside
    [pythonBuild], where the handler runs as the exit handler that
    [log.DeferExitHandler] registered.  The result is the local variable
    [stepTelemetryData] as the execution leaves it. *)
Definition Run : M CustomData.t :=
  call config_GlobalVaultClient;;
  let vaultClient := globalVaultClient w in
  let stepTelemetryData := CustomData.zero in
  let stepTelemetryData := CustomData.withErrorCode stepTelemetryData "1" in
  call log_DeferExitHandler;;
  call (telemetry_Initialize STEP_NAME);;
  stepConfig ← gets stepConfig;
  cpe ← gets commonPipelineEnvironment;
  call (pythonBuild stepConfig stepTelemetryData cpe);;
  let '(ending, stepTelemetryData, cpe) :=
    runPythonBuild w stepConfig stepTelemetryData cpe in
  modify (λ s, withCommonPipelineEnvironment s cpe);;
  match ending with
  | Returns =>
      let stepTelemetryData := CustomData.withErrorCode stepTelemetryData "0" in
      call (log_Info "SUCCESS");;
      stepTelemetryData ← handler stepTelemetryData;
      deferredRevoke vaultClient;;
      mret stepTelemetryData
  | ExitsFatal =>
      stepTelemetryData ← handler stepTelemetryData;
      call (os_Exit 1);;
      mret stepTelemetryData
  | Panics =>
      stepTelemetryData ← handler stepTelemetryData;
      deferredRevoke vaultClient;;
      mret stepTelemetryData
  end.

End WithWorld.

(** A flag of the command's flag set ([pflag]): its name, its default value
    and its usage text. *)
Module Flag.
Record t : Type := mk { Name : string; DefValue : Any; Usage : string }.
End Flag.

(** [cobra.Command], with the fields that [PythonBuildCommand] sets and the
    flag set behind [cmd.Flags()]. *)
Module Command.
Record t : Type := mk {
  Use : string;
  Short : string;
  Long : string;
  PreRunE : World → M unit;
  Run : World → M CustomData.t;
  Flags : list Flag.t
}.
Definition withFlags (c : t) (v : list Flag.t) : t :=
  mk (Use c) (Short c) (Long c) (PreRunE c) (Run c) v.
End Command.

Definition zeroOptions : pythonBuildOptions :=
  mkOptions [] [] false false "" "" "" "" "" "".

(** The assignments through the pointers [&stepConfig.Field]. *)
Definition setBuildFlags (o : pythonBuildOptions) (v : list string) :=
  mkOptions v (SetupFlags o) (CreateBOM o) (Publish o)
    (TargetRepositoryPassword o) (TargetRepositoryUser o) (TargetRepositoryURL o)
    (BuildSettingsInfo o) (VirutalEnvironmentName o) (RequirementsFilePath o).
Definition setSetupFlags (o : pythonBuildOptions) (v : list string) :=
  mkOptions (BuildFlags o) v (CreateBOM o) (Publish o)
    (TargetRepositoryPassword o) (TargetRepositoryUser o) (TargetRepositoryURL o)
    (BuildSettingsInfo o) (VirutalEnvironmentName o) (RequirementsFilePath o).
Definition setCreateBOM (o : pythonBuildOptions) (v : bool) :=
  mkOptions (BuildFlags o) (SetupFlags o) v (Publish o)
    (TargetRepositoryPassword o) (TargetRepositoryUser o) (TargetRepositoryURL o)
    (BuildSettingsInfo o) (VirutalEnvironmentName o) (RequirementsFilePath o).
Definition setPublish (o : pythonBuildOptions) (v : bool) :=
  mkOptions (BuildFlags o) (SetupFlags o) (CreateBOM o) v
    (TargetRepositoryPassword o) (TargetRepositoryUser o) (TargetRepositoryURL o)
    (BuildSettingsInfo o) (VirutalEnvironmentName o) (RequirementsFilePath o).
Definition setTargetRepositoryPassword (o : pythonBuildOptions) (v : string) :=
  mkOptions (BuildFlags o) (SetupFlags o) (CreateBOM o) (Publish o)
    v (TargetRepositoryUser o) (TargetRepositoryURL o)
    (BuildSettingsInfo o) (VirutalEnvironmentName o) (RequirementsFilePath o).
Definition setTargetRepositoryUser (o : pythonBuildOptions) (v : string) :=
  mkOptions (BuildFlags o) (SetupFlags o) (CreateBOM o) (Publish o)
    (TargetRepositoryPassword o) v (TargetRepositoryURL o)
    (BuildSettingsInfo o) (VirutalEnvironmentName o) (RequirementsFilePath o).
Definition setTargetRepositoryURL (o : pythonBuildOptions) (v : string) :=
  mkOptions (BuildFlags o) (SetupFlags o) (CreateBOM o) (Publish o)
    (TargetRepositoryPassword o) (TargetRepositoryUser o) v
    (BuildSettingsInfo o) (VirutalEnvironmentName o) (RequirementsFilePath o).
Definition setBuildSettingsInfo (o : pythonBuildOptions) (v : string) :=
  mkOptions (BuildFlags o) (SetupFlags o) (CreateBOM o) (Publish o)
    (TargetRepositoryPassword o) (TargetRepositoryUser o) (TargetRepositoryURL o)
    v (VirutalEnvironmentName o) (RequirementsFilePath o).
Definition setVirutalEnvironmentName (o : pythonBuildOptions) (v : string) :=
  mkOptions (BuildFlags o) (SetupFlags o) (CreateBOM o) (Publish o)
    (TargetRepositoryPassword o) (TargetRepositoryUser o) (TargetRepositoryURL o)
    (BuildSettingsInfo o) v (RequirementsFilePath o).
Definition setRequirementsFilePath (o : pythonBuildOptions) (v : string) :=
  mkOptions (BuildFlags o) (SetupFlags o) (CreateBOM o) (Publish o)
    (TargetRepositoryPassword o) (TargetRepositoryUser o) (TargetRepositoryURL o)
    (BuildSettingsInfo o) (VirutalEnvironmentName o) v.

(** [cmd.Flags().StringSliceVar(p, name, value, usage)] and its siblings:
    the flag is added to the flag set with [value] as its default, and the
    variable behind [p] is set to [value]. *)
Definition StringSliceVar
    (p : pythonBuildOptions → list string → pythonBuildOptions)
    (name : string) (value : list string) (usage : string)
    (st : Command.t * pythonBuildOptions) : Command.t * pythonBuildOptions :=
  (Command.withFlags (fst st)
     (Command.Flags (fst st) ++ [Flag.mk name (AnyStrings value) usage]),
   p (snd st) value).

Definition BoolVar
    (p : pythonBuildOptions → bool → pythonBuildOptions)
    (name : string) (value : bool) (usage : string)
    (st : Command.t * pythonBuildOptions) : Command.t * pythonBuildOptions :=
  (Command.withFlags (fst st)
     (Command.Flags (fst st) ++ [Flag.mk name (AnyBool value) usage]),
   p (snd st) value).

Definition StringVar
    (p : pythonBuildOptions → string → pythonBuildOptions)
    (name : string) (value : string) (usage : string)
    (st : Command.t * pythonBuildOptions) : Command.t * pythonBuildOptions :=
  (Command.withFlags (fst st)
     (Command.Flags (fst st) ++ [Flag.mk name (AnyString value) usage]),
   p (snd st) value).

Section WithEnvironment.
(** [os.Getenv], the environment of the process. *)
Variable os_Getenv : string → string.

Definition addPythonBuildFlags (cmd : Command.t) (stepConfig : pythonBuildOptions)
  : Command.t * pythonBuildOptions :=
  let st := (cmd, stepConfig) in
  let st := StringSliceVar setBuildFlags "buildFlags" []
    "Defines list of build flags passed to python binary." st in
  let st := StringSliceVar setSetupFlags "setupFlags" []
    "Defines list of flags passed to setup.py." st in
  let st := BoolVar setCreateBOM "createBOM" false
    "Creates the bill of materials (BOM) using CycloneDX plugin." st in
  let st := BoolVar setPublish "publish" false
    "Configures the build to publish artifacts to a repository." st in
  let st := StringVar setTargetRepositoryPassword "targetRepositoryPassword"
    (os_Getenv "PIPER_targetRepositoryPassword")
    "Password for the target repository where the compiled binaries shall be uploaded - typically provided by the CI/CD environment." st in
  let st := StringVar setTargetRepositoryUser "targetRepositoryUser"
    (os_Getenv "PIPER_targetRepositoryUser")
    "Username for the target repository where the compiled binaries shall be uploaded - typically provided by the CI/CD environment." st in
  let st := StringVar setTargetRepositoryURL "targetRepositoryURL"
    (os_Getenv "PIPER_targetRepositoryURL")
    "URL of the target repository where the compiled binaries shall be uploaded - typically provided by the CI/CD environment." st in
  let st := StringVar setBuildSettingsInfo "buildSettingsInfo"
    (os_Getenv "PIPER_buildSettingsInfo")
    "build settings info is typically filled by the step automatically to create information about the build settings that were used during the maven build . This information is typically used for compliance related processes." st in
  let st := StringVar setVirutalEnvironmentName "virutalEnvironmentName"
    "piperBuild-env"
    "name of the virtual environment that will be used for the build" st in
  let st := StringVar setRequirementsFilePath "requirementsFilePath"
    "requirements.txt"
    "file path to the requirements.txt file needed for the sbom cycloneDx file creation." st in
  st.

(** A composite literal of [config.StepParameters] that sets the seven
    fields the generated metadata sets; the others are zero. *)
Definition parameterLiteral (Name : string)
    (ResourceRef : list ResourceReference.t) (Scope : list string)
    (Type_ : string) (Mandatory : bool) (Aliases : list Alias.t) (Default : Any)
  : StepParameters.t :=
  StepParameters.mk Name "" "" ResourceRef Scope Type_ Mandatory Default None
                    Aliases false [] "".

(** A composite literal of [config.ResourceReference] with [Name] and
    [Param]. *)
Definition referenceLiteral (Name Param : string) : ResourceReference.t :=
  ResourceReference.mk Name "" Param "" [].

Definition pythonBuildMetadata : StepData.t :=
  let theMetaData :=
    StepData.mk
      (StepMetadata.mk "pythonBuild" [] "Step builds a python project")
      (StepSpec.mk
         (StepInputs.mk
            (Some [
               parameterLiteral "buildFlags" [] ["PARAMETERS"; "STAGES"; "STEPS"]
                 "[]string" false [] (AnyStrings []);
               parameterLiteral "setupFlags" [] ["PARAMETERS"; "STAGES"; "STEPS"]
                 "[]string" false [] (AnyStrings []);
               parameterLiteral "createBOM" []
                 ["GENERAL"; "STEPS"; "STAGES"; "PARAMETERS"]
                 "bool" false [] (AnyBool false);
               parameterLiteral "publish" [] ["STEPS"; "STAGES"; "PARAMETERS"]
                 "bool" false [] (AnyBool false);
               parameterLiteral "targetRepositoryPassword"
                 [referenceLiteral "commonPipelineEnvironment"
                                   "custom/repositoryPassword"]
                 ["PARAMETERS"; "STAGES"; "STEPS"] "string" false []
                 (AnyString (os_Getenv "PIPER_targetRepositoryPassword"));
               parameterLiteral "targetRepositoryUser"
                 [referenceLiteral "commonPipelineEnvironment"
                                   "custom/repositoryUsername"]
                 ["PARAMETERS"; "STAGES"; "STEPS"] "string" false []
                 (AnyString (os_Getenv "PIPER_targetRepositoryUser"));
               parameterLiteral "targetRepositoryURL"
                 [referenceLiteral "commonPipelineEnvironment"
                                   "custom/repositoryUrl"]
                 ["PARAMETERS"; "STAGES"; "STEPS"] "string" false []
                 (AnyString (os_Getenv "PIPER_targetRepositoryURL"));
               parameterLiteral "buildSettingsInfo"
                 [referenceLiteral "commonPipelineEnvironment"
                                   "custom/buildSettingsInfo"]
                 ["STEPS"; "STAGES"; "PARAMETERS"] "string" false []
                 (AnyString (os_Getenv "PIPER_buildSettingsInfo"));
               parameterLiteral "virutalEnvironmentName" []
                 ["STEPS"; "STAGES"; "PARAMETERS"] "string" false []
                 (AnyString "piperBuild-env");
               parameterLiteral "requirementsFilePath" []
                 ["STEPS"; "STAGES"; "PARAMETERS"] "string" false []
                 (AnyString "requirements.txt")
             ])
            [])
         (StepOutputs.mk
            [StepResources.mk "commonPipelineEnvironment" "piperEnvironment"
               [ {[ "name" := AnyString "custom/buildSettingsInfo" ]} ]])
         [Container.mk "python" "python:3.9"]) in
  theMetaData.

Definition longDescription : string :=
  cat ["Step build python project using the setup.py manifest and builds a wheel and tarball artifact . please note that currently python build only supports setup.py";
       nl; nl;
       "### build with depedencies from a private repository"; nl;
       "if your build has dependencies from a private repository you can include the standard requirements.txt into the source code with `--extra-index-url` as the first line";
       nl; nl;
       "```"; nl;
       "--extra-index-url https://${PIPER_VAULTCREDENTIAL_USERNAME}:${PIPER_VAULTCREDENTIAL_PASSWORD}@<privateRepoUrl>/simple";
       nl;
       "```"; nl;
       "`PIPER_VAULTCREDENTIAL_USERNAME` and `PIPER_VAULTCREDENTIAL_PASSWORD` are the username and password for the private repository";
       nl;
       "and are exposed are environment variables that must be present in the environment where the Piper step runs or alternatively can be created using :";
       nl;
       "[vault general purpose credentials](../infrastructure/vault.md#using-vault-for-general-purpose-and-test-credentials)"].

(** [PythonBuildCommand] returns the command; the variable [stepConfig]
    that its closures share comes with it, as the flag set initialised it. *)
Definition PythonBuildCommand : Command.t * pythonBuildOptions :=
  let metadata := pythonBuildMetadata in
  let stepConfig := zeroOptions in
  let createPythonBuildCmd :=
    Command.mk STEP_NAME "Step builds a python project" longDescription
               PreRunE Run [] in
  addPythonBuildFlags createPythonBuildCmd stepConfig.

End WithEnvironment.

(** [cobra] runs the [PreRunE] of a command and, when that returns nil, its
    [Run]. *)
Definition execute (c : Command.t) (w : World) : M CustomData.t :=
  Command.PreRunE c w;; Command.Run c w.

End cmd.


(* ===================================================================== *)
(** * The vocabulary of the properties *)
(* ===================================================================== *)

Module properties.
Import config generator.

(** Ascending by [Name] in the order of [strings.Compare]: no parameter is
    followed, anywhere later in the list, by one whose name compares
    smaller. *)
Definition nameNotAfter (p q : StepParameters.t) : Prop :=
  (strings_Compare (StepParameters.Name p) (StepParameters.Name q) ≤ 0)%Z.

Definition alphabetical (l : list StepParameters.t) : Prop :=
  StronglySorted nameNotAfter l.

(** The mandatory parameters first, the others after them, each group
    ascending by name. *)
Definition mandatoryFirst (l : list StepParameters.t) : Prop :=
  ∃ mandatory others,
    l = mandatory ++ others
    ∧ Forall (λ p, isMandatory p = true) mandatory
    ∧ Forall (λ p, isMandatory p = false) others
    ∧ alphabetical mandatory
    ∧ alphabetical others.

(** The key that [sortStepParameters] orders by: the name, and before it
    the mandatory status when [considerMandatory] holds. *)
Definition orderingKey (considerMandatory : bool) (p : StepParameters.t)
  : bool * string :=
  (considerMandatory && isMandatory p, StepParameters.Name p).

(** The closure that [sortStepParameters] passes to [sort.SliceStable]. *)
Definition lessOf (considerMandatory : bool)
  : StepParameters.t → StepParameters.t → bool :=
  if considerMandatory then lessMandatoryFirst else lessByName.


(** What is left of the metadata when the parameter slice is set aside. *)
Definition besidesParameters (stepData : StepData.t)
  : StepMetadata.t * list StepSecrets.t * StepOutputs.t * list Container.t :=
  (StepData.Metadata stepData,
   StepInputs.Secrets (StepSpec.Inputs (StepData.Spec stepData)),
   StepSpec.Outputs (StepData.Spec stepData),
   StepSpec.Containers (StepData.Spec stepData)).

(** A stable sort of [l] by [less]: the same elements, ascending, and the
    elements of every key in their old order. *)
Definition stableSortOf {A K : Type} `{EqDecision K} (less : A → A → bool)
    (key : A → K) (l sorted : list A) : Prop :=
  sorted ≡ₚ l
  ∧ StronglySorted (notAfter less) sorted
  ∧ ∀ k, filter (λ a, key a = k) sorted = filter (λ a, key a = k) l.

(** The writes to the resource store among the calls: root path, resource
    name, parameter name and value of each. *)
Definition storeWrites (calls : list cmd.Call)
  : list (string * string * string * Any) :=
  omap (λ c, match c with
             | cmd.piperenv_SetResourceParameter path resourceName paramName value =>
                 Some (path, resourceName, paramName, value)
             | _ => None
             end) calls.

(** The names of the parameters that the metadata declares for an output
    resource. *)
Definition declaredOutputs (stepData : StepData.t) (resourceName : string)
  : list (option Any) :=
  r ← filter (λ r, StepResources.Name r = resourceName)
             (StepOutputs.Resources (StepSpec.Outputs (StepData.Spec stepData)));
  (λ m : gmap string Any, m !! "name") <$> StepResources.Parameters r.

Definition isValidateStruct (c : cmd.Call) : bool :=
  match c with
  | cmd.validation_ValidateStruct _ => true
  | _ => false
  end.

Definition isRegisterSecret (c : cmd.Call) : bool :=
  match c with
  | cmd.log_RegisterSecret _ => true
  | _ => false
  end.

(** The telemetry data as the handler of [Run] leaves it: duration, error
    category and commit hash filled in, the error code as it came. *)
Definition sealed (w : cmd.World) (stepTelemetryData : cmd.CustomData.t)
    (s : cmd.State) : cmd.CustomData.t :=
  cmd.CustomData.withPiperCommitHash
    (cmd.CustomData.withErrorCategory
       (cmd.CustomData.withDuration stepTelemetryData
          (cmd.formatInt w (cmd.sinceMilliseconds w (cmd.startTime s))))
       (cmd.errorCategory w))
    (cmd.gitCommit w).

(** The calls are made in this order, with any other calls between. *)
Fixpoint inOrder (expected calls : list cmd.Call) : Prop :=
  match expected with
  | [] => True
  | c :: expected' =>
      ∃ before after, calls = before ++ c :: after ∧ inOrder expected' after
  end.

End properties.


(* ===================================================================== *)
(** * Sample inputs *)
(* ===================================================================== *)

Module samples.
Import config generator.

(** Lower case for the letters A to Z, every other byte as it is. *)
Definition lowerAscii (c : ascii) : ascii :=
  let n := nat_of_ascii c in
  if (65 <=? n)%nat && (n <=? 90)%nat then ascii_of_nat (n + 32) else c.

Fixpoint lower (s : string) : string :=
  match s with
  | EmptyString => EmptyString
  | String c s' => String (lowerAscii c) (lower s')
  end.

Definition sprint (v : Any) : string :=
  match v with
  | AnyNil => "<nil>"
  | AnyBool true => "true"
  | AnyBool false => "false"
  | AnyString s => s
  | AnyOther _ printed => printed
  | _ => "?"
  end.

Definition env : Env := {|
  stepParameterNames := ["url"; "token"; "retries"; "Verify"];
  strings_ToLower := lower;
  fmt_Sprint := sprint;
  VaultRootPaths :=
    ["$(vaultPath)"; "$(vaultBasePath)/$(vaultPipelineName)";
     "$(vaultBasePath)/GROUP-SECRETS"];
  RefTypeSystemTrustSecret := "systemTrustSecret"
|}.

Definition parameter (name description : string) (mandatory : bool)
    (mandatoryIf : list ParameterDependence.t) : StepParameters.t :=
  StepParameters.mk name description "" [] ["PARAMETERS"] "string" mandatory
                    AnyNil None [] false mandatoryIf "".

Definition url : StepParameters.t := parameter "url" "the address" true [].
Definition token : StepParameters.t :=
  parameter "token" "the token" false [ParameterDependence.mk "Verify" "true"].
Definition retries1 : StepParameters.t := parameter "retries" "first" false [].
Definition retries2 : StepParameters.t := parameter "retries" "second" false [].
Definition Verify : StepParameters.t := parameter "Verify" "" false [].
Definition dockerWorkspace : StepParameters.t :=
  parameter "dockerWorkspace" "" false [].

Definition dataWith (parameters : option (list StepParameters.t)) : StepData.t :=
  StepData.mk (StepMetadata.mk "sample" [] "a sample step")
    (StepSpec.mk (StepInputs.mk parameters []) (StepOutputs.mk []) []).

Definition stepData : StepData.t :=
  dataWith (Some [retries1; url; dockerWorkspace; retries2; Verify; token]).

Definition nilData : StepData.t := dataWith None.

Import cmd.

Definition populate (o : pythonBuildOptions) : pythonBuildOptions :=
  setTargetRepositoryUser (setTargetRepositoryPassword o "s3cret") "robot".

(** Surroundings that end the step as given, answer [PrepareConfig] and
    the writes to the store with the given errors, and let every other call
    succeed. *)
Definition worldWhere (ending : Ending) (configError storeError : option error)
  : World := {|
  now := 1000;
  sinceMilliseconds := λ start, 42%Z;
  getwd := inl "/workspace";
  accessTokens := λ _, ∅;
  prepareConfig := λ o, (populate o, configError);
  registerANSHook := None;
  newValidation := None;
  validateStruct := λ _, None;
  globalVaultClient := true;
  errorCategory := "undefined";
  gitCommit := "0123abc";
  setResourceParameter := λ _ _ _ _, storeError;
  publish := None;
  runPythonBuild := λ o telemetryData _,
    (ending, telemetryData, mkEnvironment (customStruct.mk "settings"));
  formatInt := λ _, "42"
|}.

Definition world : World := worldWhere Returns None None.

Definition generalConfig : GeneralConfigOptions.t :=
  GeneralConfigOptions.mk false [] ∅ "id-1" ".pipeline"
    (HookConfiguration.mk
       (SentryConfig.mk "")
       (SplunkConfig.mk "https://splunk" "token" "index" true "" "" "")
       (GCPPubSubConfig.mk false "" "" "" "")
       (OIDCConfig.mk "")).

Definition state : State :=
  mkState zeroOptions 0 (mkEnvironment (customStruct.mk "")) None false
          generalConfig ∅.

End samples.


(* ===================================================================== *)
(** * Proofs *)
(* ===================================================================== *)

Section SliceStableFacts.
Context {A : Type} (less : A → A → bool).

Lemma insertLeftwards_perm x revPrefix :
  insertLeftwards less x revPrefix ≡ₚ x :: revPrefix.
Proof.
  induction revPrefix as [|y rp IH]; simpl; [done|].
  destruct (less x y); [|done].
  rewrite IH. apply Permutation_swap.
Qed.

Lemma fold_insertLeftwards_perm l acc :
  fold_left (λ revPrefix e, insertLeftwards less e revPrefix) l acc ≡ₚ l ++ acc.
Proof.
  revert acc. induction l as [|x l IH]; intros acc; simpl; [done|].
  rewrite IH, insertLeftwards_perm. by rewrite Permutation_middle.
Qed.

Lemma sort_SliceStable_perm l : sort_SliceStable less l ≡ₚ l.
Proof.
  unfold sort_SliceStable, insertionSort.
  rewrite reverse_Permutation, fold_insertLeftwards_perm. by rewrite app_nil_r.
Qed.

Section Stable.
Context {K : Type} `{EqDecision K} (key : A → K).
Hypothesis less_same_key : ∀ x y, key x = key y → less x y = false.

Lemma insertLeftwards_filter k x revPrefix :
  filter (λ a, key a = k) (insertLeftwards less x revPrefix)
  = filter (λ a, key a = k) (x :: revPrefix).
Proof.
  induction revPrefix as [|y rp IH]; simpl; [done|].
  destruct (less x y) eqn:Hxy; [|done].
  rewrite filter_cons, IH, !filter_cons.
  destruct (decide (key y = k)) as [Hy|Hy], (decide (key x = k)) as [Hx|Hx];
    try done.
  rewrite less_same_key in Hxy by congruence. done.
Qed.

Lemma fold_insertLeftwards_filter k l acc :
  filter (λ a, key a = k)
         (fold_left (λ revPrefix e, insertLeftwards less e revPrefix) l acc)
  = reverse (filter (λ a, key a = k) l) ++ filter (λ a, key a = k) acc.
Proof.
  revert acc. induction l as [|x l IH]; intros acc; simpl; [done|].
  rewrite IH, insertLeftwards_filter, !filter_cons.
  destruct (decide (key x = k)); simpl; [|done].
  by rewrite reverse_cons, <- app_assoc.
Qed.

Lemma sort_SliceStable_filter k l :
  filter (λ a, key a = k) (sort_SliceStable less l) = filter (λ a, key a = k) l.
Proof.
  unfold sort_SliceStable, insertionSort.
  rewrite filter_reverse, fold_insertLeftwards_filter. simpl.
  by rewrite app_nil_r, reverse_involutive.
Qed.
End Stable.
End SliceStableFacts.

Section Ordered.
Context {A : Type} (less : A → A → bool).
Hypothesis less_asym : ∀ x y, less x y = true → less y x = false.
Hypothesis notAfter_trans :
  ∀ x y z, notAfter less x y → notAfter less y z → notAfter less x z.

Lemma StronglySorted_reverse (R : relation A) l :
  StronglySorted (flip R) l → StronglySorted R (reverse l).
Proof.
  induction 1 as [|x l Hl IH Hx]; [constructor|].
  rewrite reverse_cons. apply StronglySorted_app_2; [|done|repeat constructor].
  intros x1 x2 Hx1 ->%list_elem_of_singleton.
  rewrite Forall_forall in Hx. apply Hx. by apply elem_of_reverse.
Qed.

Lemma insertLeftwards_sorted x revPrefix :
  StronglySorted (flip (notAfter less)) revPrefix →
  StronglySorted (flip (notAfter less)) (insertLeftwards less x revPrefix).
Proof.
  induction 1 as [|y rp Hrp IH Hy]; simpl; [repeat constructor|].

  destruct (less x y) eqn:Hxy.
  - constructor; [done|].
    rewrite insertLeftwards_perm. constructor; [|done].
    unfold flip, notAfter. by apply less_asym.
  - constructor; [by constructor|].
    constructor; [done|].
    eapply Forall_impl; [exact Hy|].
    intros z Hz. unfold flip in *. by eapply notAfter_trans.
Qed.

Lemma sort_SliceStable_sorted l :
  StronglySorted (notAfter less) (sort_SliceStable less l).
Proof.
  unfold sort_SliceStable, insertionSort. apply StronglySorted_reverse.
  generalize (SSorted_nil (flip (notAfter less))).
  generalize (@nil A) as acc.
  induction l as [|x l IH]; intros acc Hacc; simpl; [done|].
  apply IH. by apply insertLeftwards_sorted.
Qed.

Section Key.
Context {K : Type} `{EqDecision K} (key : A → K).
Hypothesis less_same_key : ∀ x y, key x = key y → less x y = false.
Hypothesis same_key_incomparable :
  ∀ x y, less x y = false → less y x = false → key x = key y.

Lemma sort_SliceStable_stableSortOf l :
  properties.stableSortOf less key l (sort_SliceStable less l).
Proof.
  split; [apply sort_SliceStable_perm|].
  split; [apply sort_SliceStable_sorted|].
  intros k. by apply sort_SliceStable_filter.
Qed.

Lemma sorted_stable_unique (s1 s2 : list A) :
  s1 ≡ₚ s2 →
  StronglySorted (notAfter less) s1 →
  StronglySorted (notAfter less) s2 →
  (∀ k, filter (λ a, key a = k) s1 = filter (λ a, key a = k) s2) →
  s1 = s2.
Proof.
  revert s2. induction s1 as [|a s1 IH]; intros s2 Hp H1 H2 Hf.
  { by apply Permutation_nil_l in Hp. }
  destruct s2 as [|b s2]; [by apply Permutation_nil_r in Hp|].
  apply StronglySorted_inv in H1 as [H1 Ha], H2 as [H2 Hb].
  assert (a = b) as <-.
  { assert (a ∈ b :: s2) as Hab by (rewrite <- Hp; left).
    assert (b ∈ a :: s1) as Hba by (rewrite Hp; left).
    apply elem_of_cons in Hab as [?|Hab]; [done|].
    apply elem_of_cons in Hba as [?|Hba]; [done|].
    rewrite Forall_forall in Ha, Hb.
    specialize (Ha _ Hba). specialize (Hb _ Hab). unfold notAfter in Ha, Hb.
    specialize (Hf (key a)). rewrite !filter_cons in Hf.
    rewrite decide_True in Hf by done.
    rewrite decide_True in Hf by (symmetry; by apply same_key_incomparable).
    by injection Hf. }
  f_equal. apply IH; [by eapply Permutation_cons_inv|done|done|].
  intros k. specialize (Hf k). rewrite !filter_cons in Hf.
  destruct (decide (key a = k)); [by injection Hf|done].
Qed.

(** Every stable sort of [l] is the slice that [sort_SliceStable] computes. *)
Lemma stable_sort_unique l sorted :
  properties.stableSortOf less key l sorted → sorted = sort_SliceStable less l.
Proof.
  intros (Hp & Hs & Hf).
  destruct (sort_SliceStable_stableSortOf l) as (Hp' & Hs' & Hf').
  apply sorted_stable_unique; [by rewrite Hp, Hp'|done|done|].
  intros k. by rewrite Hf, Hf'.
Qed.
End Key.
End Ordered.

(** ** The order of [strings.Compare] *)

Lemma Ascii_compare_refl a : Ascii.compare a a = Eq.
Proof. unfold Ascii.compare. apply N.compare_refl. Qed.

Lemma Ascii_compare_lt_trans a b c :
  Ascii.compare a b = Lt → Ascii.compare b c = Lt → Ascii.compare a c = Lt.
Proof. unfold Ascii.compare. rewrite !N.compare_lt_iff. lia. Qed.

Lemma String_compare_refl a : String.compare a a = Eq.
Proof.
  induction a as [|c a IH]; simpl; [done|]. by rewrite Ascii_compare_refl.
Qed.

Lemma String_compare_lt_trans a b c :
  String.compare a b = Lt → String.compare b c = Lt → String.compare a c = Lt.
Proof.
  revert b c. induction a as [|x a IH]; intros [|y b] [|z c]; simpl; try done.
  destruct (Ascii.compare x y) eqn:Hxy; try done.
  - apply Ascii.compare_eq_iff in Hxy as ->.
    destruct (Ascii.compare y z); try done. apply IH.
  - destruct (Ascii.compare y z) eqn:Hyz; try done.
    + apply Ascii.compare_eq_iff in Hyz as <-. by rewrite Hxy.
    + by rewrite (Ascii_compare_lt_trans x y z).
Qed.

Lemma strings_Compare_lt a b :
  (strings_Compare a b <? 0)%Z = true ↔ String.compare a b = Lt.
Proof. unfold strings_Compare. destruct (String.compare a b); simpl; split; done. Qed.

Lemma strings_Compare_nlt a b :
  (strings_Compare a b <? 0)%Z = false ↔ (strings_Compare b a ≤ 0)%Z.
Proof.
  unfold strings_Compare. rewrite (String.compare_antisym a b).
  destruct (String.compare b a); simpl; split; (done || lia).
Qed.

Lemma strings_Compare_eq a b : strings_Compare a b = 0%Z ↔ a = b.
Proof.
  unfold strings_Compare. split.
  - destruct (String.compare a b) eqn:Hab; try done.
    intros _. by apply String.compare_eq_iff.
  - intros ->. by rewrite String_compare_refl.
Qed.

Lemma strings_Compare_le_trans a b c :
  (strings_Compare a b ≤ 0)%Z → (strings_Compare b c ≤ 0)%Z →
  (strings_Compare a c ≤ 0)%Z.
Proof.
  unfold strings_Compare.
  destruct (String.compare a b) eqn:Hab; try lia; intros _.
  { apply String.compare_eq_iff in Hab as ->. done. }
  destruct (String.compare b c) eqn:Hbc; try lia; intros _.
  { apply String.compare_eq_iff in Hbc as ->. by rewrite Hab. }
  by rewrite (String_compare_lt_trans a b c).
Qed.


Lemma append_String (x : ascii) (a b : string) :
  String x a +:+ b = String x (a +:+ b).
Proof. reflexivity. Qed.

Lemma append_assoc (a b c : string) : (a +:+ b) +:+ c = a +:+ (b +:+ c).
Proof.
  induction a as [|x a IH]; [done|]. by rewrite !append_String, IH.
Qed.

Lemma append_nil_r (a : string) : a +:+ "" = a.
Proof.
  induction a as [|x a IH]; [done|]. by rewrite append_String, IH.
Qed.

Lemma length_append (a b : string) :
  String.length (a +:+ b) = (String.length a + String.length b)%nat.
Proof.
  induction a as [|x a IH]; [done|]. rewrite append_String. simpl. by rewrite IH.
Qed.

Lemma cat_nil : cat [] = "".
Proof. done. Qed.

Lemma cat_cons (a : string) (l : list string) : cat (a :: l) = a +:+ cat l.
Proof.
  unfold cat. destruct l as [|b l]; simpl; [by rewrite append_nil_r|done].
Qed.


Module GeneratorProofs.
Import config generator properties.

Section Closures.

Lemma lessByName_notAfter p q : notAfter lessByName p q ↔ nameNotAfter p q.
Proof. unfold notAfter, lessByName, nameNotAfter. apply strings_Compare_nlt. Qed.

Lemma lessMandatoryFirst_notAfter p q :
  notAfter lessMandatoryFirst p q ↔
  (isMandatory p = true ∧ isMandatory q = false)
  ∨ (isMandatory p = isMandatory q ∧ nameNotAfter p q).
Proof.
  unfold notAfter, lessMandatoryFirst, nameNotAfter.
  destruct (isMandatory p), (isMandatory q); simpl;
    rewrite ?strings_Compare_nlt; intuition congruence.
Qed.

Lemma lessOf_asym cm x y : lessOf cm x y = true → lessOf cm y x = false.
Proof.
  destruct cm; simpl; unfold lessMandatoryFirst, lessByName.
  - destruct (isMandatory x), (isMandatory y); simpl; try done;
      rewrite strings_Compare_lt, strings_Compare_nlt; unfold strings_Compare;
      intros ->; done.
  - rewrite strings_Compare_lt, strings_Compare_nlt; unfold strings_Compare;
      intros ->; done.
Qed.

Lemma lessOf_notAfter_trans cm x y z :
  notAfter (lessOf cm) x y → notAfter (lessOf cm) y z → notAfter (lessOf cm) x z.
Proof.
  destruct cm; simpl.
  - rewrite !lessMandatoryFirst_notAfter. unfold nameNotAfter.
    intros [[Hp Hq]|[He Hxy]] [[Hp' Hq']|[He' Hyz]]; try (left; split; congruence).
    right. split; [congruence|]. by eapply strings_Compare_le_trans.
  - rewrite !lessByName_notAfter. unfold nameNotAfter.
    apply strings_Compare_le_trans.
Qed.

Lemma lessOf_same_key cm x y :
  orderingKey cm x = orderingKey cm y → lessOf cm x y = false.
Proof.
  unfold orderingKey. intros [= Hm Hn].
  destruct cm; simpl in *; unfold lessMandatoryFirst, lessByName; rewrite Hn.
  - rewrite Hm. rewrite Bool.eqb_reflx.
    apply strings_Compare_nlt. by rewrite (proj2 (strings_Compare_eq _ _)).
  - apply strings_Compare_nlt. by rewrite (proj2 (strings_Compare_eq _ _)).
Qed.

End Closures.

Section Generator.

Lemma parametersOf_sortStepParameters stepData considerMandatory :
  parametersOf (sortStepParameters stepData considerMandatory)
  = sort_SliceStable (lessOf considerMandatory) (parametersOf stepData).
Proof.
  unfold sortStepParameters, parametersOf.
  destruct stepData as [meta [[[ps|] secrets] outputs containers]];
    destruct considerMandatory; simpl; done.
Qed.

Lemma besidesParameters_sortStepParameters stepData considerMandatory :
  besidesParameters (sortStepParameters stepData considerMandatory)
  = besidesParameters stepData.
Proof.
  unfold sortStepParameters, besidesParameters.
  destruct stepData as [meta [[[ps|] secrets] outputs containers]];
    destruct considerMandatory; simpl; done.
Qed.

Lemma sortStepParameters_stableSortOf stepData considerMandatory :
  stableSortOf (lessOf considerMandatory) (orderingKey considerMandatory)
    (parametersOf stepData)
    (parametersOf (sortStepParameters stepData considerMandatory)).
Proof.
  rewrite parametersOf_sortStepParameters.
  apply sort_SliceStable_stableSortOf.
  - apply lessOf_asym.
  - apply lessOf_notAfter_trans.
  - apply lessOf_same_key.
Qed.

Lemma sorted_lessByName_alphabetical l :
  StronglySorted (notAfter lessByName) l → alphabetical l.
Proof.
  induction 1 as [|x l Hl IH Hx]; constructor; [done|].
  eapply Forall_impl; [exact Hx|]. intros q. by rewrite lessByName_notAfter.
Qed.

Lemma sorted_lessMandatoryFirst_mandatoryFirst l :
  StronglySorted (notAfter lessMandatoryFirst) l → mandatoryFirst l.
Proof.
  induction 1 as [|x l Hl IH Hx]; [by exists [], []; repeat constructor|].
  destruct IH as (mandatory & others & -> & Hm & Ho & Hma & Hoa).
  apply Forall_app in Hx as [Hxm Hxo].
  destruct (isMandatory x) eqn:Hmx.
  - exists (x :: mandatory), others. repeat split; try done.
    + by constructor.
    + constructor; [done|].
      rewrite Forall_forall in Hxm, Hm. apply Forall_forall. intros q Hq.
      specialize (Hxm q Hq). specialize (Hm q Hq).
      apply lessMandatoryFirst_notAfter in Hxm as [[_ ?]|[_ ?]]; [congruence|done].
  - destruct mandatory as [|y mandatory].
    + exists [], (x :: others). repeat split; try done.
      * by constructor.
      * constructor; [done|].
        eapply Forall_impl; [exact Hxo|]. intros q Hq.
        apply lessMandatoryFirst_notAfter in Hq as [[? _]|[_ ?]]; [congruence|done].
    + apply Forall_cons in Hxm as [Hxy _], Hm as [Hy _].
      apply lessMandatoryFirst_notAfter in Hxy as [[? _]|[? _]]; congruence.
Qed.
End Generator.

Section GeneratorClaims.
Context `{Env}.


(** C9. [sortStepParameters] permutes the parameter slice and touches
    nothing else: the sorted slice has the elements of the old one, each
    as often as before and whole; it is nil exactly when the old one is;
    metadata, secrets, outputs and containers stay; and with a nil slice
    the metadata is returned as it came. *)
Theorem sortStepParameters_permutes (stepData : StepData.t)
    (considerMandatory : bool) :
  parametersOf (sortStepParameters stepData considerMandatory)
    ≡ₚ parametersOf stepData
  ∧ besidesParameters (sortStepParameters stepData considerMandatory)
    = besidesParameters stepData
  ∧ (StepInputs.Parameters
       (StepSpec.Inputs (StepData.Spec
          (sortStepParameters stepData considerMandatory))) = None
     ↔ StepInputs.Parameters (StepSpec.Inputs (StepData.Spec stepData)) = None)
  ∧ (StepInputs.Parameters (StepSpec.Inputs (StepData.Spec stepData)) = None →
     sortStepParameters stepData considerMandatory = stepData).
Proof.
  split; [apply (sortStepParameters_stableSortOf stepData considerMandatory)|].
  split; [apply besidesParameters_sortStepParameters|].
  unfold sortStepParameters.
  destruct stepData as [meta [[[ps|] secrets] outputs containers]];
    destruct considerMandatory; simpl; split; done.
Qed.

(** C1. [createParametersSection] renders both overview tables from the
    metadata sorted with the mandatory parameters first, each of the two
    groups ascending by name, and the details from the metadata sorted
    again, ascending by name throughout; both times the slice keeps its
    elements.  The names ascend in the order of [strings.Compare]. *)
Theorem createParametersSection_sorts (stepData : StepData.t) :
  let overviewData := sortStepParameters stepData true in
  let detailsData := sortStepParameters overviewData false in
  createParametersSection stepData
  = (cat [cat ["## Parameters"; nl; nl];
          cat ["### Overview - Step"; nl; nl];
          createParameterOverview overviewData false;
          cat ["### Overview - Execution Environment"; nl; nl];
          cat ["!!! note "; dquote; "Orchestrator-specific only"; dquote; nl; nl;
               "    These parameters are relevant for orchestrator usage and not considered when using the command line option.";
               nl; nl];
          createParameterOverview overviewData true;
          cat ["### Details"; nl; nl];
          createParameterDetails detailsData],
     detailsData)
  ∧ mandatoryFirst (parametersOf overviewData)
  ∧ parametersOf overviewData ≡ₚ parametersOf stepData
  ∧ alphabetical (parametersOf detailsData)
  ∧ parametersOf detailsData ≡ₚ parametersOf stepData.
Proof.
  intros overviewData detailsData.
  destruct (sortStepParameters_stableSortOf stepData true) as (Hp1 & Hs1 & _).
  destruct (sortStepParameters_stableSortOf overviewData false) as (Hp2 & Hs2 & _).
  split.
  { unfold createParametersSection. cbv zeta. fold overviewData detailsData.
    f_equal. rewrite !cat_cons, !cat_nil, !append_nil_r, !append_assoc. done. }
  split; [by apply sorted_lessMandatoryFirst_mandatoryFirst|].
  split; [done|].
  split; [by apply sorted_lessByName_alphabetical|].
  by etrans.
Qed.
End GeneratorClaims.

Lemma sortStepParameters_permutes_witness :
  sortStepParameters samples.nilData true = samples.nilData.
Proof.
  apply (proj2 (proj2 (proj2 (sortStepParameters_permutes samples.nilData true)))).
  reflexivity.
Defined.

Example sortStepParameters_sample_mandatory :
  map (λ p, (StepParameters.Name p, StepParameters.Description p))
      (parametersOf (sortStepParameters samples.stepData true))
  = [("token", "the token"); ("url", "the address"); ("Verify", "");
     ("dockerWorkspace", ""); ("retries", "first"); ("retries", "second")].
Proof. reflexivity. Qed.

Example sortStepParameters_sample_names :
  map (λ p, (StepParameters.Name p, StepParameters.Description p))
      (parametersOf (sortStepParameters samples.stepData false))
  = [("Verify", ""); ("dockerWorkspace", ""); ("retries", "first");
     ("retries", "second"); ("token", "the token"); ("url", "the address")].
Proof. reflexivity. Qed.

Section GeneratorClaims2.
Context `{Env}.

Lemma parameterFurtherInfo_checks (paramName : string) (stepData : StepData.t) :
  ∃ furtherInfo stepParam, ∀ executionEnvironment,
    parameterFurtherInfo paramName stepData executionEnvironment
    = checkParameterInfo furtherInfo stepParam executionEnvironment.
Proof.
  unfold parameterFurtherInfo.
  repeat match goal with
         | |- context [if ?b then _ else _] => destruct b
         | |- context [match ?o with Some _ => _ | None => _ end] => destruct o
         end;
    eexists _, _; intros ee; reflexivity.
Qed.

Lemma overview_loop (stepData : StepData.t) (executionEnvironment : bool)
    (ps : list StepParameters.t) (table : string) :
  fold_left (λ table param,
               match overviewRow stepData executionEnvironment param with
               | Some row => table +:+ row
               | None => table
               end) ps table
  = table +:+ cat (omap (overviewRow stepData executionEnvironment) ps).
Proof.
  revert table. induction ps as [|p ps IH]; intros table; simpl.
  - by rewrite cat_nil, append_nil_r.
  - rewrite IH. destruct (overviewRow _ _ p); simpl; [|done].
    by rewrite cat_cons, append_assoc.
Qed.

Lemma createParameterOverview_rows (stepData : StepData.t)
    (executionEnvironment : bool) :
  createParameterOverview stepData executionEnvironment
  = cat [cat ["| Name | Mandatory | Additional information |"; nl];
         cat ["| ---- | --------- | ---------------------- |"; nl];
         cat (omap (overviewRow stepData executionEnvironment)
                   (parametersOf stepData));
         nl].
Proof.
  unfold createParameterOverview. cbv zeta. rewrite overview_loop.
  generalize (cat (omap (overviewRow stepData executionEnvironment)
                        (parametersOf stepData))) as rows.
  intros rows. by rewrite !cat_cons, !cat_nil, !append_nil_r, !append_assoc.
Qed.

(** C8. [checkParameterInfo] returns the text and no error exactly when
    its two flags differ, and the empty text with an error exactly when
    they are equal.  So a parameter has a row in exactly one of the two
    overview tables: in the step table ([executionEnvironment] false) or
    in the execution environment table, never in both and never in
    neither; each table is its two header lines and the rows of its
    parameters. *)
Theorem checkParameterInfo_exclusive (furtherInfo : string)
    (stepParam executionEnvironment : bool) :
  (checkParameterInfo furtherInfo stepParam executionEnvironment
   = (furtherInfo, None)
   ↔ stepParam ≠ executionEnvironment)
  ∧ (fst (checkParameterInfo furtherInfo stepParam executionEnvironment) = ""
     ∧ is_Some (snd (checkParameterInfo furtherInfo stepParam executionEnvironment))
     ↔ stepParam = executionEnvironment)
  ∧ (∀ (stepData : StepData.t) (param : StepParameters.t),
       (is_Some (overviewRow stepData false param)
        ∧ overviewRow stepData true param = None)
       ∨ (overviewRow stepData false param = None
          ∧ is_Some (overviewRow stepData true param)))
  ∧ (∀ (stepData : StepData.t) (forEnvironment : bool),
       createParameterOverview stepData forEnvironment
       = cat [cat ["| Name | Mandatory | Additional information |"; nl];
              cat ["| ---- | --------- | ---------------------- |"; nl];
              cat (omap (overviewRow stepData forEnvironment)
                        (parametersOf stepData));
              nl]).
Proof.
  split; [|split; [|split]].
  - destruct stepParam, executionEnvironment; simpl; split; try done.
    all: intros [=].
  - destruct stepParam, executionEnvironment; simpl; split; try done.
    all: try (intros [_ [? [=]]]); intros _; split; eauto.
  - intros stepData param. unfold overviewRow.
    destruct (parameterFurtherInfo_checks (StepParameters.Name param) stepData)
      as (info & isStep & Heq).
    rewrite !Heq. destruct isStep; simpl;
      destruct (parameterMandatoryInformation param info) as [[? ?] ?];
      [left|right]; split; eauto.
  - apply createParameterOverview_rows.
Qed.
Lemma strings_Join_cons_length (first : string) (rest : list string)
    (sep : string) :
  (len first ≤ len (strings_Join (first :: rest) sep))%nat.
Proof.
  unfold strings_Join, len. destruct rest as [|second rest]; simpl; [done|].
  rewrite length_append. lia.
Qed.

(** Whatever the parameter, the mandatory string is the bracketed one
    exactly when the information text is not empty. *)
Lemma parameterMandatoryInformation_string (param : StepParameters.t)
    (furtherInfo : string) :
  let '(_, mandatoryString, mandatoryInfo) :=
    parameterMandatoryInformation param furtherInfo in
  mandatoryString
  = if (0 <? len mandatoryInfo)%nat then "**(yes)**" else "**yes**".
Proof.
  unfold parameterMandatoryInformation. cbv zeta.
  by destruct (0 <? List.length (StepParameters.MandatoryIf param))%nat.
Qed.

(** C10. For a parameter whose [MandatoryIf] list is not empty,
    [parameterMandatoryInformation] reports mandatory, whatever the field
    [Mandatory] says; the information text is the further information,
    followed by a line break when it is not empty, followed by the line
    "mandatory in case of:" and one line for each condition; that text is
    not empty, and the mandatory string is the bracketed "**(yes)**". *)
Theorem parameterMandatoryInformation_conditional
    (param : StepParameters.t) (furtherInfo : string) :
  StepParameters.MandatoryIf param ≠ [] →
  let conditions :=
    strings_Join
      ("mandatory in case of:"
       :: map (λ c, cat ["- [`"; ParameterDependence.Name c; "`](#";
                         strings_ToLower (ParameterDependence.Name c); ")=`";
                         ParameterDependence.Value c; "`"])
              (StepParameters.MandatoryIf param))
      "<br />" in
  let mandatoryInfo :=
    (if (0 <? len furtherInfo)%nat then furtherInfo +:+ "<br />"
     else furtherInfo) +:+ conditions in
  parameterMandatoryInformation param furtherInfo
  = (true, "**(yes)**", mandatoryInfo)
  ∧ (0 < len mandatoryInfo)%nat.
Proof.
  intros Hif conditions mandatoryInfo.
  assert (0 < len mandatoryInfo)%nat as Hlen.
  { unfold mandatoryInfo, len. rewrite length_append.
    pose proof (strings_Join_cons_length "mandatory in case of:"
      (map (λ c, cat ["- [`"; ParameterDependence.Name c; "`](#";
                      strings_ToLower (ParameterDependence.Name c); ")=`";
                      ParameterDependence.Value c; "`"])
           (StepParameters.MandatoryIf param)) "<br />") as Hle.
    fold conditions in Hle. unfold len in Hle. simpl in Hle. lia. }
  split; [|done].
  unfold parameterMandatoryInformation. cbv zeta.
  destruct (StepParameters.MandatoryIf param) as [|c cs] eqn:Hm; [done|].
  change (0 <? List.length (c :: cs))%nat with true. cbv iota.
  change ((true, (if (0 <? len mandatoryInfo)%nat then "**(yes)**" else "**yes**"),
           mandatoryInfo) = (true, "**(yes)**", mandatoryInfo)).
  apply Nat.ltb_lt in Hlen. by rewrite Hlen.
Qed.
End GeneratorClaims2.

Lemma parameterMandatoryInformation_conditional_witness :
  @parameterMandatoryInformation samples.env samples.token ""
  = (true, "**(yes)**", "mandatory in case of:<br />- [`Verify`](#verify)=`true`")
  ∧ (0 < len "mandatory in case of:<br />- [`Verify`](#verify)=`true`")%nat.
Proof.
  apply (@parameterMandatoryInformation_conditional samples.env samples.token "").
  discriminate.
Defined.

Example parameterMandatoryInformation_plain :
  @parameterMandatoryInformation samples.env samples.url "" = (true, "**yes**", "")
  ∧ @parameterMandatoryInformation samples.env samples.retries1 "note"
    = (false, "**(yes)**", "note").
Proof. split; reflexivity. Qed.

Example overviewRow_sample :
  map (λ p, (bool_decide (is_Some (@overviewRow samples.env samples.stepData false p)),
             bool_decide (is_Some (@overviewRow samples.env samples.stepData true p))))
      (parametersOf samples.stepData)
  = [(true, false); (true, false); (false, true); (true, false); (true, false);
     (true, false)].
Proof. reflexivity. Qed.

End GeneratorProofs.

Module CmdProofs.
Import config cmd properties.

Lemma inOrder_nil calls : inOrder [] calls.
Proof. done. Qed.

Lemma inOrder_here c expected calls :
  inOrder expected calls → inOrder (c :: expected) (c :: calls).
Proof. intros Hrest. by exists [], calls. Qed.

Lemma inOrder_skip c expected calls :
  inOrder expected calls → inOrder expected (c :: calls).
Proof.
  destruct expected as [|e expected]; [done|].
  intros (before & after & -> & Hrest). by exists (c :: before), after.
Qed.

Ltac step := cbv [mbind M_bind mret M_ret call gets modify returnErr].

Ltac branches :=
  repeat match goal with
         | |- context [match ?x with _ => _ end] =>
             match x with
             | context [match _ with _ => _ end] => fail 1
             | _ => destruct x eqn:?
             end
         end.

Ltac in_order :=
  repeat first [ apply inOrder_nil | apply inOrder_here | apply inOrder_skip ].

Section CmdFacts.
Variable w : World.

Lemma persist_runs p path resourceName s :
  persist w p path resourceName s
  = let key := "custom/buildSettingsInfo" in
    let value := AnyString (customStruct.buildSettingsInfo (custom p)) in
    match setResourceParameter w path resourceName key value with
    | Some err =>
        (inr tt, s,
         [piperenv_SetResourceParameter path resourceName key value;
          log_Error "Error persisting piper environment." (Some err);
          log_Error "failed to persist Piper environment" None])
    | None =>
        (inr tt, withResources s (<[(path, resourceName, key) := value]> (resources s)),
         [piperenv_SetResourceParameter path resourceName key value])
    end.
Proof.
  unfold persist, SetResourceParameter. simpl forRange. step.
  change (filepath_Join ["custom"; "buildSettingsInfo"]) with "custom/buildSettingsInfo".
  cbv zeta.
  destruct (setResourceParameter w path resourceName "custom/buildSettingsInfo" _);
    reflexivity.
Qed.
End CmdFacts.


Section CmdFacts2.
Variable w : World.

Lemma handler_runs stepTelemetryData s :
  resultOf (handler w stepTelemetryData) s = inr (sealed w stepTelemetryData s)
  ∧ Forall (λ c, isDomainCall c = false) (callsOf (handler w stepTelemetryData) s)
  ∧ inOrder [piperenv_SetResourceParameter
               (GeneralConfigOptions.EnvRootPath (GeneralConfig s))
               "commonPipelineEnvironment" "custom/buildSettingsInfo"
               (AnyString (customStruct.buildSettingsInfo
                             (custom (commonPipelineEnvironment s))));
             config_RemoveVaultSecretFiles;
             telemetry_SetData (sealed w stepTelemetryData s);
             telemetry_LogStepTelemetryData]
            (callsOf (handler w stepTelemetryData) s)
  ∧ stepConfig (stateAfter (handler w stepTelemetryData) s) = stepConfig s
  ∧ commonPipelineEnvironment (stateAfter (handler w stepTelemetryData) s)
    = commonPipelineEnvironment s.
Proof.
  unfold resultOf, stateAfter, callsOf, handler, sealed. step.
  rewrite persist_runs. cbv zeta.
  branches; cbn -[inOrder].
  all: split; [reflexivity|].
  all: split; [solve [repeat constructor]|].
  all: split; [solve [in_order]|].
  all: done.
Qed.
End CmdFacts2.

Section CmdClaims.
Variable w : World.

Lemma handler_returns stepTelemetryData s :
  ∃ s' calls,
    handler w stepTelemetryData s = (inr (sealed w stepTelemetryData s), s', calls).
Proof.
  pose proof (handler_runs w stepTelemetryData s) as [Hr _].
  unfold resultOf in Hr. destruct (handler w stepTelemetryData s) as [[r s'] calls].
  simpl in Hr. subst r. by exists s', calls.
Qed.

(** C4. [persist] writes one key to the resource store, whatever the
    environment holds: the only call of [piperenv.SetResourceParameter]
    is for [custom/buildSettingsInfo] with the value of the field
    [custom.buildSettingsInfo]; that key is the one output parameter the
    step metadata declares for the common pipeline environment; every
    other entry of the store is as it was; the entry itself holds the
    value when the write succeeds; and [persist] always comes back. *)
Theorem persist_writes_one_key (os_Getenv : string → string)
    (p : pythonBuildCommonPipelineEnvironment) (path resourceName : string)
    (s : State) :
  let key := "custom/buildSettingsInfo" in
  let value := AnyString (customStruct.buildSettingsInfo (custom p)) in
  let after := stateAfter (persist w p path resourceName) s in
  storeWrites (callsOf (persist w p path resourceName) s)
  = [(path, resourceName, key, value)]
  ∧ declaredOutputs (pythonBuildMetadata os_Getenv) "commonPipelineEnvironment"
    = [Some (AnyString key)]
  ∧ (∀ k, k ≠ (path, resourceName, key) → resources after !! k = resources s !! k)
  ∧ resources after !! (path, resourceName, key)
    = match setResourceParameter w path resourceName key value with
      | None => Some value
      | Some _ => resources s !! (path, resourceName, key)
      end
  ∧ resultOf (persist w p path resourceName) s = inr tt.
Proof.
  intros key value after. unfold after, stateAfter, callsOf, resultOf.
  rewrite persist_runs. cbv zeta. fold key value.
  destruct (setResourceParameter w path resourceName key value); simpl.
  - repeat split; done.
  - repeat split; try done.
    + intros k Hk. by rewrite lookup_insert_ne.
    + by rewrite lookup_insert_eq.
Qed.

(** C5. The ten flags that [addPythonBuildFlags] registers carry, name by
    name and in the same order, the defaults that [pythonBuildMetadata]
    declares for the ten parameters, whose names are distinct: empty
    string slices, false, the [PIPER_] environment variables,
    [piperBuild-env] and [requirements.txt].  Both are read against the
    same environment. *)
Theorem flag_defaults_match_metadata (os_Getenv : string → string) :
  let flags := Command.Flags (fst (PythonBuildCommand os_Getenv)) in
  let parameters := generator.parametersOf (pythonBuildMetadata os_Getenv) in
  List.length flags = 10%nat
  ∧ NoDup (map StepParameters.Name parameters)
  ∧ map (λ f, (Flag.Name f, Flag.DefValue f)) flags
    = map (λ p, (StepParameters.Name p, StepParameters.Default p)) parameters
  ∧ map (λ f, (Flag.Name f, Flag.DefValue f)) flags
    = [("buildFlags", AnyStrings []);
       ("setupFlags", AnyStrings []);
       ("createBOM", AnyBool false);
       ("publish", AnyBool false);
       ("targetRepositoryPassword",
        AnyString (os_Getenv "PIPER_targetRepositoryPassword"));
       ("targetRepositoryUser", AnyString (os_Getenv "PIPER_targetRepositoryUser"));
       ("targetRepositoryURL", AnyString (os_Getenv "PIPER_targetRepositoryURL"));
       ("buildSettingsInfo", AnyString (os_Getenv "PIPER_buildSettingsInfo"));
       ("virutalEnvironmentName", AnyString "piperBuild-env");
       ("requirementsFilePath", AnyString "requirements.txt")]
  ∧ (∀ (cmd : Command.t) (stepConfig : pythonBuildOptions),
       Command.Flags (fst (addPythonBuildFlags os_Getenv cmd stepConfig))
       = Command.Flags cmd ++ flags).
Proof.
  intros flags parameters.
  split; [reflexivity|].
  split; [|split; [reflexivity|split; [reflexivity|]]].
  - apply (bool_decide_unpack _). vm_compute. reflexivity.
  - intros cmd stepConfig. unfold addPythonBuildFlags, StringSliceVar, BoolVar, StringVar.
    simpl. by rewrite <- !app_assoc.
Qed.

(** C7. In an execution of [PreRunE] that reaches [PrepareConfig]: when it
    succeeds, the password and the user of the populated configuration
    are registered as secrets, in this order, after [PrepareConfig] and
    with no struct validation before them; when it fails, [PreRunE]
    returns that error and registers no secret. *)
Theorem PreRunE_registers_secrets (s : State) :
  PrepareConfig STEP_NAME ∈ callsOf (PreRunE w) s →
  let '(populated, err) := prepareConfig w (stepConfig s) in
  match err with
  | None =>
      (∃ before after,
          callsOf (PreRunE w) s
          = before
            ++ [log_RegisterSecret (TargetRepositoryPassword populated);
                log_RegisterSecret (TargetRepositoryUser populated)]
            ++ after
          ∧ PrepareConfig STEP_NAME ∈ before
          ∧ Forall (λ c, isValidateStruct c = false) before)
      ∧ stepConfig (stateAfter (PreRunE w) s) = populated
  | Some e =>
      resultOf (PreRunE w) s = inl e
      ∧ Forall (λ c, isRegisterSecret c = false) (callsOf (PreRunE w) s)
  end.
Proof.
  unfold resultOf, stateAfter, callsOf, PreRunE. step. cbv zeta.
  destruct (getwd w) as [path|e] eqn:Hwd.
  2: { simpl. intros Hin.
       repeat (apply elem_of_cons in Hin as [Hin|Hin]; [discriminate|]).
       by apply elem_of_nil in Hin. }
  intros _. cbn [stepConfig withGeneralConfig withStartTime].
  destruct (prepareConfig w (stepConfig s)) as [populated [e|]] eqn:Hprep.
  - simpl. split; [done|]. repeat constructor.
  - branches; cbn.
    all: split; [|done].
    all: eexists [_; _; _; _; _; _; _], _.
    all: split; [reflexivity|].
    all: split; [do 6 apply list_elem_of_further; apply list_elem_of_here
                |repeat constructor].
Qed.

Lemma Run_runs (s : State) :
  let cfg := stepConfig s in
  let cpe := commonPipelineEnvironment s in
  let initial := CustomData.withErrorCode CustomData.zero "1" in
  let '(ending, afterStep, cpe') := runPythonBuild w cfg initial cpe in
  let atHandler :=
    match ending with
    | Returns => CustomData.withErrorCode afterStep "0"
    | _ => afterStep
    end in
  let s' := withCommonPipelineEnvironment s cpe' in
  callsOf (Run w) s
  = [config_GlobalVaultClient; log_DeferExitHandler;
     telemetry_Initialize STEP_NAME]
    ++ [pythonBuild cfg initial cpe]
    ++ match ending with Returns => [log_Info "SUCCESS"] | _ => [] end
    ++ callsOf (handler w atHandler) s'
    ++ match ending with
       | ExitsFatal => [os_Exit 1]
       | _ => if globalVaultClient w then [vaultClient_MustRevokeToken] else []
       end
  ∧ resultOf (Run w) s = inr (sealed w atHandler s')
  ∧ stateAfter (Run w) s = stateAfter (handler w atHandler) s'.
Proof.
  intros cfg cpe initial.
  destruct (runPythonBuild w cfg initial cpe) as [[ending afterStep] cpe'] eqn:Hrun.
  intros atHandler s'.
  unfold resultOf, stateAfter, callsOf, Run, deferredRevoke. step. cbv zeta.
  fold cfg cpe initial. rewrite Hrun.
  destruct ending; cbn [fst snd app]; fold s';
    destruct (handler_returns atHandler s') as (s'' & calls & Hh);
    unfold atHandler in *; rewrite Hh; destruct (globalVaultClient w);
    cbn; rewrite ?app_nil_r; done.
Qed.

Lemma PreRunE_infrastructure (s : State) :
  Forall (λ c, isDomainCall c = false) (callsOf (PreRunE w) s)
  ∧ (∀ u, resultOf (PreRunE w) s = inr u →
          stepConfig (stateAfter (PreRunE w) s) = fst (prepareConfig w (stepConfig s))
          ∧ commonPipelineEnvironment (stateAfter (PreRunE w) s)
            = commonPipelineEnvironment s).
Proof.
  unfold resultOf, stateAfter, callsOf, PreRunE. step. cbv zeta.
  destruct (getwd w) as [path|e].
  2: { cbn. split; [repeat constructor|done]. }
  cbn [stepConfig withGeneralConfig withStartTime].
  destruct (prepareConfig w (stepConfig s)) as [populated err] eqn:Hprep.
  branches; cbn; (split; [repeat constructor|]); intros u Hu; done.
Qed.

Lemma filter_domain_infrastructure (calls : list Call) :
  Forall (λ c, isDomainCall c = false) calls →
  filter (λ c, isDomainCall c = true) calls = [].
Proof.
  induction 1 as [|c calls Hc _ IH]; [done|].
  rewrite filter_cons, decide_False by congruence. done.
Qed.

(** C3. The [Run] of the command that [PythonBuildCommand] returns makes
    one call into the step, [pythonBuild], with the shared [stepConfig],
    the telemetry data and the common pipeline environment; every other
    call goes to the infrastructure.  The environment is passed by
    pointer: what the step leaves in it is what [Run] leaves behind.  In
    an execution of the command the configuration passed is the one
    [PrepareConfig] populated, and no call is made when [PreRunE] returns
    an error. *)
Theorem Run_calls_pythonBuild_once (os_Getenv : string → string) (s : State) :
  let command := fst (PythonBuildCommand os_Getenv) in
  let initial := CustomData.withErrorCode CustomData.zero "1" in
  filter (λ c, isDomainCall c = true) (callsOf (Command.Run command w) s)
  = [pythonBuild (stepConfig s) initial (commonPipelineEnvironment s)]
  ∧ commonPipelineEnvironment (stateAfter (Command.Run command w) s)
    = snd (runPythonBuild w (stepConfig s) initial (commonPipelineEnvironment s))
  ∧ filter (λ c, isDomainCall c = true) (callsOf (execute command w) s)
    = match resultOf (Command.PreRunE command w) s with
      | inr _ =>
          [pythonBuild (fst (prepareConfig w (stepConfig s))) initial
                       (commonPipelineEnvironment s)]
      | inl _ => []
      end.
Proof.
  intros command initial.
  change (Command.Run command) with Run.
  change (Command.PreRunE command) with PreRunE.
  assert (∀ s, filter (λ c, isDomainCall c = true) (callsOf (Run w) s)
               = [pythonBuild (stepConfig s) initial (commonPipelineEnvironment s)]
               ∧ commonPipelineEnvironment (stateAfter (Run w) s)
                 = snd (runPythonBuild w (stepConfig s) initial
                                       (commonPipelineEnvironment s))) as HRun.
  { clear s. intros s. pose proof (Run_runs s) as HR. cbv zeta in HR.
    fold initial in HR.
    destruct (runPythonBuild w (stepConfig s) initial (commonPipelineEnvironment s))
      as [[ending afterStep] cpe'].
    destruct HR as (-> & _ & ->).
    match goal with
    | |- context [callsOf (handler w ?td) ?s'] =>
        pose proof (handler_runs w td s') as (_ & Hinfra & _ & _ & Hcpe)
    end.
    split; [|by rewrite Hcpe].
    rewrite !filter_app. rewrite (filter_domain_infrastructure _ Hinfra).
    destruct ending, (globalVaultClient w); reflexivity. }
  split; [apply HRun|]. split; [apply HRun|].
  unfold execute. change (Command.Run command) with Run.
  change (Command.PreRunE command) with PreRunE.
  destruct (PreRunE_infrastructure s) as [Hinfra Hok].
  unfold callsOf, resultOf, stateAfter in *. step.
  destruct (PreRunE w s) as [[[e|u] s'] calls]; simpl in *.
  - by apply filter_domain_infrastructure.
  - destruct (Hok u eq_refl) as [Hcfg Hcpe].
    destruct (HRun s') as [Hf _]. rewrite Hcfg, Hcpe in Hf.
    destruct (Run w s') as [[r s''] calls']. simpl in *.
    rewrite filter_app, Hf. by rewrite (filter_domain_infrastructure _ Hinfra).
Qed.

(** C6. In every execution of [Run] the telemetry data reaches
    [pythonBuild] with the error code "1", and no call into the step comes
    earlier.  The handler runs after it however the step ends: it persists
    the common pipeline environment as the step left it, removes the vault
    secret files and publishes the telemetry data.  That data carries the
    error code "0" when [pythonBuild] returned, and otherwise the code as
    the step left it: [Run] assigns "0" only after the return. *)
Theorem Run_telemetry_and_handler (s : State) :
  let cfg := stepConfig s in
  let cpe := commonPipelineEnvironment s in
  let initial := CustomData.withErrorCode CustomData.zero "1" in
  let '(ending, afterStep, cpe') := runPythonBuild w cfg initial cpe in
  let atHandler :=
    match ending with
    | Returns => CustomData.withErrorCode afterStep "0"
    | _ => afterStep
    end in
  let s' := withCommonPipelineEnvironment s cpe' in
  CustomData.ErrorCode initial = "1"
  ∧ (∃ before between after,
        callsOf (Run w) s
        = before ++ [pythonBuild cfg initial cpe] ++ between
          ++ callsOf (handler w atHandler) s' ++ after
        ∧ Forall (λ c, isDomainCall c = false) before
        ∧ between = match ending with Returns => [log_Info "SUCCESS"] | _ => [] end)
  ∧ inOrder [piperenv_SetResourceParameter
               (GeneralConfigOptions.EnvRootPath (GeneralConfig s))
               "commonPipelineEnvironment" "custom/buildSettingsInfo"
               (AnyString (customStruct.buildSettingsInfo (custom cpe')));
             config_RemoveVaultSecretFiles;
             telemetry_SetData (sealed w atHandler s');
             telemetry_LogStepTelemetryData]
            (callsOf (handler w atHandler) s')
  ∧ CustomData.ErrorCode (sealed w atHandler s')
    = match ending with
      | Returns => "0"
      | _ => CustomData.ErrorCode afterStep
      end
  ∧ resultOf (Run w) s = inr (sealed w atHandler s').
Proof.
  intros cfg cpe initial. pose proof (Run_runs s) as HR. cbv zeta in HR.
  fold cfg cpe initial in HR.
  destruct (runPythonBuild w cfg initial cpe) as [[ending afterStep] cpe'].
  intros atHandler s'. fold atHandler s' in HR. destruct HR as (Hcalls & Hres & _).
  split; [reflexivity|].
  split.
  { eexists _, _, _. split; [exact Hcalls|]. split; [repeat constructor|done]. }
  split; [apply (handler_runs w atHandler s')|].
  split; [by destruct ending|done].
Qed.
End CmdClaims.

Lemma PreRunE_registers_secrets_witness :
  (∃ before after,
      callsOf (PreRunE samples.world) samples.state
      = before ++ [log_RegisterSecret "s3cret"; log_RegisterSecret "robot"] ++ after
      ∧ PrepareConfig STEP_NAME ∈ before
      ∧ Forall (λ c, isValidateStruct c = false) before)
  ∧ stepConfig (stateAfter (PreRunE samples.world) samples.state)
    = samples.populate zeroOptions.
Proof.
  apply (PreRunE_registers_secrets samples.world samples.state).
  vm_compute. do 6 apply list_elem_of_further. apply list_elem_of_here.
Defined.

Example PreRunE_sample_config_error :
  resultOf (PreRunE (samples.worldWhere Returns (Some "no such file") None))
           samples.state
  = inl "no such file"
  ∧ callsOf (PreRunE (samples.worldWhere Returns (Some "no such file") None))
            samples.state
    = [time_Now; log_SetStepName "pythonBuild"; log_SetVerbose false;
       ResolveAccessTokens []; os_Getwd;
       log_RegisterHook (FatalHook "id-1" "/workspace");
       PrepareConfig "pythonBuild"; log_SetErrorCategory ErrorConfiguration].
Proof. split; reflexivity. Qed.

Example Run_sample_success :
  map isDomainCall (callsOf (Run samples.world) samples.state)
  = [false; false; false; true; false; false; false; false; false; false;
     false; false; false; false; false]
  ∧ storeWrites (callsOf (Run samples.world) samples.state)
    = [(".pipeline", "commonPipelineEnvironment", "custom/buildSettingsInfo",
        AnyString "settings")]
  ∧ resultOf (Run samples.world) samples.state
    = inr (CustomData.mk "42" "0" "undefined" "0123abc").
Proof. repeat split; reflexivity. Qed.

Example Run_sample_fatal :
  let w := samples.worldWhere ExitsFatal None (Some "disk full") in
  last (callsOf (Run w) samples.state) = Some (os_Exit 1)
  ∧ map isDomainCall (take 5 (callsOf (Run w) samples.state))
    = [false; false; false; true; false]
  ∧ storeWrites (callsOf (Run w) samples.state)
    = [(".pipeline", "commonPipelineEnvironment", "custom/buildSettingsInfo",
        AnyString "settings")]
  ∧ resultOf (Run w) samples.state
    = inr (CustomData.mk "42" "1" "undefined" "0123abc").
Proof. repeat split; reflexivity. Qed.

End CmdProofs.
